(** * The air-hockey "prepare" task of mushroom_rl

    A shallow embedding of
    [mushroom_rl/environments/pybullet_envs/air_hockey/prepare.py]
    (class [AirHockeyPrepare]) and the properties of its reward,
    termination, reset and contact-tracking methods.

    Numbers.  The source computes in IEEE binary64 through numpy.  Here a
    finite float is idealised as a real number: there is no rounding, no
    overflow to an infinity and no underflow to zero, and the reals have a
    single zero where binary64 has two.  The [nan] of a division [0 / 0]
    is kept as a separate constructor that propagates through arithmetic
    the way numpy's does.  Statements about bounds are therefore given
    with non-strict inequalities, statements about the value of the
    pre-hit branch assume a distance that is not zero, and statements
    about the sign taken from puck_y leave the sign at zero open. *)

From Stdlib Require Import Reals Lra ZArith List String Bool.
From stdpp Require Import base gmap strings.

Local Open Scope R_scope.

(** ** Python exceptions

    A method that raises is modelled by [Raise]; the partly updated object
    an exception leaves behind is not kept. *)

Inductive exn : Type :=
| TypeError
| AxisError
| IndexError
| KeyError.

Inductive result (A : Type) : Type :=
| Ok (a : A)
| Raise (e : exn).

Arguments Ok {A} a.
Arguments Raise {A} e.

Definition bind {A B : Type} (m : result A) (k : A -> result B) : result B :=
  match m with
  | Ok a => k a
  | Raise e => Raise e
  end.

Notation "'let*' x ':=' m 'in' k" := (bind m (fun x => k))
  (at level 10, x pattern, m at level 100, k at level 200).

(** A dictionary lookup [d[k]]: [KeyError] when the key is absent. *)
Definition getitem `{Countable K} {V : Type} (d : gmap K V) (k : K) : result V :=
  match d !! k with
  | Some v => Ok v
  | None => Raise KeyError
  end.

(** ** The numpy and builtin operations the class uses *)

Module np.

Inductive float64 : Type :=
| fin (x : R)
| nan.

Definition isfinite (a : float64) : bool :=
  match a with
  | fin _ => true
  | nan => false
  end.

Definition lift1 (f : R -> R) (a : float64) : float64 :=
  match a with
  | fin x => fin (f x)
  | nan => nan
  end.

Definition lift2 (f : R -> R -> R) (a b : float64) : float64 :=
  match a, b with
  | fin x, fin y => fin (f x y)
  | _, _ => nan
  end.

Definition add : float64 -> float64 -> float64 := lift2 Rplus.
Definition sub : float64 -> float64 -> float64 := lift2 Rminus.
Definition mul : float64 -> float64 -> float64 := lift2 Rmult.

(** [x ** 2] *)
Definition square : float64 -> float64 := lift1 (fun x => x * x).

(** [x / d] on finite operands.  A zero divisor gives [nan]; the class
    only divides a vector by its own norm, so a zero divisor comes with a
    zero dividend ([linalg_norm2_eq_0] below) and the quotient is the
    [0 / 0] of numpy. *)
Definition true_divide (x d : R) : float64 :=
  if Req_dec_T d 0 then nan else fin (x / d).

(** [np.linalg.norm] of a one-dimensional array. *)
Definition sum_squares (v : list R) : R :=
  fold_right (fun x acc => x * x + acc) 0 v.

Definition linalg_norm (v : list R) : R := sqrt (sum_squares v).

Definition linalg_norm2 (v : R * R) : R := linalg_norm [v.1; v.2].

(** [a - b] and [a / d] on arrays of two elements, [a @ b] on two of them. *)
Definition sub2 (a b : R * R) : R * R := (a.1 - b.1, a.2 - b.2).

Definition true_divide2 (a : R * R) (d : R) : float64 * float64 :=
  (true_divide a.1 d, true_divide a.2 d).

Definition matmul2 (a : float64 * float64) (b : R * R) : float64 :=
  add (mul a.1 (fin b.1)) (mul a.2 (fin b.2)).

(** [np.clip(a, lo, hi)] is [minimum(maximum(a, lo), hi)]; [nan] stays. *)
Definition clip (a : float64) (lo hi : R) : float64 :=
  lift1 (fun x => Rmin (Rmax x lo) hi) a.

(** [np.copysign(m, y)]: the magnitude of [m] with the sign of [y].  The
    zero of the reals takes the sign of the positive zero; numpy gives a
    negative zero the sign minus. *)
Definition copysign (m y : R) : R :=
  if Rlt_dec y 0 then - Rabs m else Rabs m.

(** [np.mean(a, axis=1)] of a 2x2 array; [None] is not an array with an
    axis 1. *)
Definition mean_axis1 (a : option ((R * R) * (R * R))) : result (R * R) :=
  match a with
  | Some (row0, row1) => Ok ((row0.1 + row0.2) / 2, (row1.1 + row1.2) / 2)
  | None => Raise AxisError
  end.

(** [np.power(x, 2.)], the exponent being a whole number. *)
Definition power (x : R) (n : nat) : R := x ^ n.

Definition pi : R := PI.

End np.

(** Comparisons of finite floats, as booleans. *)
Definition Rltb (x y : R) : bool := if Rlt_dec x y then true else false.
Definition Rgtb (x y : R) : bool := Rltb y x.
Definition Rgeb (x y : R) : bool := if Rge_dec x y then true else false.

(** Python's [max([a, b])]: the first of the largest elements, found with
    [>]; a comparison with [nan] is false. *)
Definition py_max (a b : R) : R := if Rltb a b then b else a.

Definition py_max_f (a b : np.float64) : np.float64 :=
  match a, b with
  | np.fin x, np.fin y => np.fin (py_max x y)
  | _, _ => a
  end.

(** [l[i]] on a Python list or array: [IndexError] out of range. *)
Definition getindex {A : Type} (l : list A) (i : nat) : result A :=
  match l !! i with
  | Some a => Ok a
  | None => Raise IndexError
  end.

(** ** The simulation client

    The physics engine is outside the class.  Of the client the class uses
    one query, [getContactPoints], and two commands, which are recorded in
    the order they are issued. *)

Module pybullet.

(** A contact point as the engine reports it; the class only counts
    them. *)
Record ContactPoint : Type := {
  bodyUniqueIdA : Z;
  bodyUniqueIdB : Z;
  linkIndexA : Z;
  linkIndexB : Z
}.

Inductive Call : Type :=
| ResetBasePositionAndOrientation (body : Z) (pos : R * R * R) (orn : R * R * R * R)
| ResetJointState (model_id joint_id : Z) (value : R).

Record Client : Type := {
  getContactPoints : Z -> Z -> Z -> Z -> list ContactPoint;
  calls : list Call
}.

Definition issue (c : Client) (k : Call) : Client :=
  {| getContactPoints := getContactPoints c; calls := calls c ++ [k] |}.

Definition resetBasePositionAndOrientation
    (c : Client) (body : Z) (pos : R * R * R) (orn : R * R * R * R) : Client :=
  issue c (ResetBasePositionAndOrientation body pos orn).

Definition resetJointState (c : Client) (model_id joint_id : Z) (value : R) : Client :=
  issue c (ResetJointState model_id joint_id value).

End pybullet.

(** ** The parent class, as far as [AirHockeyPrepare] reads it *)

(** Modelled from the spec: the observation the parent's [get_sim_state]
    is asked about.  The parent class is not part of the sources; of a
    state the class reads the puck's position and linear velocity and the
    position of the striker's end-effector link. *)
Record State : Type := {
  puck_BODY_POS : R * R * R;
  puck_BODY_LIN_VEL : R * R * R;
  link_striker_ee_LINK_POS : R * R * R
}.

Inductive Observed : Type :=
| puck__BODY_POS
| puck__BODY_LIN_VEL
| planar_robot_1_link_striker_ee__LINK_POS.

(** Modelled from the spec: the parent's [get_sim_state(state, name, type)]
    for the three (name, type) pairs the class asks for. *)
Definition get_sim_state (obs : State) (what : Observed) : R * R * R :=
  match what with
  | puck__BODY_POS => puck_BODY_POS obs
  | puck__BODY_LIN_VEL => puck_BODY_LIN_VEL obs
  | planar_robot_1_link_striker_ee__LINK_POS => link_striker_ee_LINK_POS obs
  end.

(** The slice [[:2]] of an array of three elements. *)
Definition slice2 (v : R * R * R) : R * R := (v.1.1, v.1.2).

Record Indexer : Type := {
  link_map : gmap string (Z * Z);
  action_data : list (Z * Z * Z)
}.

(** The attributes of the parent object that the methods below read:
    [self.client], [self._model_map], [self._indexer], [self.init_state]
    and [self._state]. *)
Record AirHockeySingle : Type := {
  client : pybullet.Client;
  _model_map : gmap string Z;
  _indexer : Indexer;
  init_state : list R;
  _state : State
}.

Definition set_client (p : AirHockeySingle) (c : pybullet.Client) : AirHockeySingle :=
  {| client := c;
     _model_map := _model_map p;
     _indexer := _indexer p;
     init_state := init_state p;
     _state := _state p |}.

(** The draws [setup] takes from numpy's global generator:
    [np.random.rand(2)] and [np.random.randint(2)]. *)
Record Random : Type := {
  rand : R * R;
  randint : bool  (* [np.random.randint(2)] is 0 ([false]) or 1 ([true]) *)
}.

(** ** The class [AirHockeyPrepare] *)

Module Prepare.

Record AirHockeyPrepare : Type := {
  random_init : bool;
  action_penalty : R;
  sub_problem : string;
  start_range : option ((R * R) * (R * R));
  desired_point : R * R;
  ee_end_pos : R * R;
  has_hit : bool;
  has_bounce : bool;
  puck_pos : option (R * R);
  super : AirHockeySingle
}.

(** [__init__]: the attributes of the class are set, then the parent's
    constructor runs; [super_init] is its outcome.  The arguments passed
    on to the parent do not include [random_init], [action_penalty] or
    [sub_problem]. *)
Definition __init__ (super_init : result AirHockeySingle)
    (random_init : bool) (action_penalty : R) (sub_problem : string)
    : result AirHockeyPrepare :=
  let start_range :=
    if (sub_problem =? "side")%string then Some ((-0.8, -0.4), (0.25, 0.46))
    else if (sub_problem =? "bottom")%string then Some ((-0.9, -0.8), (0.125, 0.46))
    else None in
  let* parent := super_init in
  Ok {| random_init := random_init;
        action_penalty := action_penalty;
        sub_problem := sub_problem;
        start_range := start_range;
        desired_point := (-0.6, 0);
        ee_end_pos := (-8.10001913e-01, -1.43459494e-06);
        has_hit := false;
        has_bounce := false;
        puck_pos := None;
        super := parent |}.

(** The loop of [setup] over [enumerate(self._indexer.action_data)],
    from index [i] on. *)
Fixpoint reset_joints (c : pybullet.Client) (data : list (Z * Z * Z))
    (init : list R) (i : nat) : result pybullet.Client :=
  match data with
  | [] => Ok c
  | (model_id, joint_id, _) :: rest =>
      let* q := getindex init i in
      reset_joints (pybullet.resetJointState c model_id joint_id q) rest init (S i)
  end.

(** The first statement of [setup]: the start of the puck and the new value
    of [self.puck_pos], which only the random branch assigns. *)
Definition setup_puck_pos (self : AirHockeyPrepare) (random : Random)
    : result ((R * R) * option (R * R)) :=
  if random_init self then
    match start_range self with
    | None => Raise TypeError
    | Some (xs, ys) =>
        let p := ((rand random).1 * (xs.2 - xs.1) + xs.1,
                  (rand random).2 * (ys.2 - ys.1) + ys.1) in
        let flip := if randint random then -1 else 1 in
        let p := (p.1 * 1, p.2 * flip) in
        Ok (p, Some p)
    end
  else
    let* p := np.mean_axis1 (start_range self) in
    Ok (p, puck_pos self).

Definition setup (self : AirHockeyPrepare) (random : Random) (state : State)
    : result AirHockeyPrepare :=
  let* drawn := setup_puck_pos self random in
  let puck_pos2 := drawn.1 in
  let desired := (puck_pos2.1, 0) in
  let puck_pos3 := (puck_pos2.1, puck_pos2.2, -0.189) in
  let parent := super self in
  let* puck := getitem (_model_map parent) "puck" in
  let c := pybullet.resetBasePositionAndOrientation
             (client parent) puck puck_pos3 (0, 0, 0, 1.0) in
  let* c := reset_joints c (action_data (_indexer parent)) (init_state parent) 0 in
  Ok {| random_init := random_init self;
        action_penalty := action_penalty self;
        sub_problem := sub_problem self;
        start_range := start_range self;
        desired_point := desired;
        ee_end_pos := ee_end_pos self;
        has_hit := false;
        has_bounce := false;
        puck_pos := drawn.2;
        super := set_client parent c |}.

Definition reward (self : AirHockeyPrepare) (state : State) (action : list R)
    (next_state : State) (absorbing : bool) : np.float64 :=
  let puck_pos := slice2 (get_sim_state next_state puck__BODY_POS) in
  let puck_vel := slice2 (get_sim_state next_state puck__BODY_LIN_VEL) in
  let ee_pos :=
    slice2 (get_sim_state next_state planar_robot_1_link_striker_ee__LINK_POS) in
  let minus_penalty (r : np.float64) : np.float64 :=
    np.sub r (np.fin (action_penalty self * np.linalg_norm action)) in
  if (sub_problem self =? "side")%string then
    if absorbing && Rltb (Rabs puck_pos.2) 0.47 then
      np.fin (100 * exp (-2 * np.linalg_norm2 puck_vel))
    else
      minus_penalty
        (if has_hit self then
           if Rltb puck_pos.1 (-0.35) && Rltb (Rabs puck_pos.2) 0.47 then
             let r_vel_x := py_max 0 (1 - 10 * (exp (Rabs puck_vel.1) - 1)) in
             let dist_ee_des := np.linalg_norm2 (np.sub2 ee_pos (ee_end_pos self)) in
             let r_ee := 0.5 - dist_ee_des in
             np.fin (r_vel_x + r_ee + 1)
           else
             np.fin 0
         else
           let dist_ee_puck := np.linalg_norm2 (np.sub2 puck_pos ee_pos) in
           let vec_ee_puck := np.true_divide2 (np.sub2 puck_pos ee_pos) dist_ee_puck in
           let cos_ang :=
             np.clip (np.matmul2 vec_ee_puck (0, np.copysign 1 puck_pos.2)) 0 1 in
           np.mul (np.fin (exp (-8 * (dist_ee_puck - 0.08)))) (np.square cos_ang))
  else
    if absorbing && Rgeb puck_pos.1 (-0.6) then
      np.fin (100 * exp (-2 * np.linalg_norm2 puck_vel))
    else
      minus_penalty
        (if has_hit self then
           if (Rgtb (-0.6) puck_pos.1 && Rgtb puck_pos.1 (-0.9))
              && Rltb (Rabs puck_pos.2) 0.47 then
             let sig := 0.1 in
             let r_x := 1 / (sqrt (2 * np.pi) * sig)
                        * exp ((- np.power ((puck_pos.1 + 0.75) / sig) 2) / 2) in
             let r_y := 2 - Rabs puck_vel.2 in
             let dist_ee_des := np.linalg_norm2 (np.sub2 ee_pos (ee_end_pos self)) in
             let r_ee := 0.5 * exp (-3 * dist_ee_des) in
             np.fin (r_x + r_y + r_ee + 1)
           else
             np.fin 0
         else
           let dist_ee_puck := np.linalg_norm2 (np.sub2 puck_pos ee_pos) in
           let vec_ee_puck := np.true_divide2 (np.sub2 puck_pos ee_pos) dist_ee_puck in
           let cos_ang_side :=
             np.clip (np.matmul2 vec_ee_puck (0.2, np.copysign 0.8 puck_pos.2)) 0 1 in
           let cos_ang_bottom := np.clip (np.matmul2 vec_ee_puck (-1, 0)) 0 1 in
           let cos_ang := py_max_f cos_ang_side cos_ang_bottom in
           np.mul (np.fin (exp (-8 * (dist_ee_puck - 0.08)))) (np.square cos_ang)).

(** [len(self.client.getContactPoints(self._model_map['puck'],
    self._indexer.link_map[link][0], -1, self._indexer.link_map[link][1]))] *)
Definition contact_count (parent : AirHockeySingle) (link : string) : result nat :=
  let* puck := getitem (_model_map parent) "puck" in
  let* ids := getitem (link_map (_indexer parent)) link in
  Ok (length (pybullet.getContactPoints (client parent) puck ids.1 (-1)%Z ids.2)).

Definition with_flags (self : AirHockeyPrepare) (hit bounce : bool) : AirHockeyPrepare :=
  {| random_init := random_init self;
     action_penalty := action_penalty self;
     sub_problem := sub_problem self;
     start_range := start_range self;
     desired_point := desired_point self;
     ee_end_pos := ee_end_pos self;
     has_hit := hit;
     has_bounce := bounce;
     puck_pos := puck_pos self;
     super := super self |}.

Definition _simulation_post_step (self : AirHockeyPrepare) : result AirHockeyPrepare :=
  let parent := super self in
  let* hit :=
    if negb (has_hit self) then
      let* collision_count := contact_count parent "planar_robot_1/link_striker_ee" in
      Ok (if (0 <? collision_count)%nat then true else has_hit self)
    else Ok (has_hit self) in
  let* bounce :=
    if negb (has_bounce self) then
      let collision_count := 0%nat in
      let* n := contact_count parent "t_up_rim_l" in
      let collision_count := (collision_count + n)%nat in
      let* n := contact_count parent "t_up_rim_r" in
      let collision_count := (collision_count + n)%nat in
      let* n := contact_count parent "t_down_rim_l" in
      let collision_count := (collision_count + n)%nat in
      let* n := contact_count parent "t_down_rim_r" in
      let collision_count := (collision_count + n)%nat in
      Ok (if (0 <? collision_count)%nat then true else has_bounce self)
    else Ok (has_bounce self) in
  Ok (with_flags self hit bounce).

Section Inherited.

(** The parent's [is_absorbing], which the class calls through [super()]. *)
Variable super_is_absorbing : AirHockeySingle -> State -> bool.

Definition is_absorbing (self : AirHockeyPrepare) (state : State) : bool :=
  if super_is_absorbing (super self) state then true
  else if (sub_problem self =? "side")%string then
    if has_hit self then
      let puck_pos := slice2 (get_sim_state (_state (super self)) puck__BODY_POS) in
      if Rgtb puck_pos.1 0 || Rltb (Rabs puck_pos.2) 0.01 then true
      else has_bounce self
    else has_bounce self
  else
    if has_hit self then
      let puck_pos := slice2 (get_sim_state (_state (super self)) puck__BODY_POS) in
      if Rgtb puck_pos.1 0 || Rltb (Rabs puck_pos.2) 0.01 then true
      else false
    else false.

End Inherited.

Section InheritedObservation.

(** The parent's [_create_observation], an array of floats. *)
Variable super_create_observation : AirHockeySingle -> State -> list R.

(** [np.append(obs, [self.has_hit])]: the boolean becomes 1.0 or 0.0. *)
Definition _create_observation (self : AirHockeyPrepare) (state : State) : list R :=
  let obs := super_create_observation (super self) state in
  obs ++ [if has_hit self then 1 else 0].

End InheritedObservation.

End Prepare.

(** ** Vocabulary of the statements *)

(** What the reward and termination methods read from a state. *)
Definition puck_xy (s : State) : R * R := slice2 (get_sim_state s puck__BODY_POS).
Definition puck_velocity (s : State) : R * R := slice2 (get_sim_state s puck__BODY_LIN_VEL).
Definition ee_xy (s : State) : R * R :=
  slice2 (get_sim_state s planar_robot_1_link_striker_ee__LINK_POS).

(** The puck is past the centre line or on the lane axis. *)
Definition crossed (s : State) : Prop :=
  (puck_xy s).1 > 0 \/ Rabs (puck_xy s).2 < 0.01.

(** The amount subtracted at the end of [reward]. *)
Definition penalty (self : Prepare.AirHockeyPrepare) (action : list R) : R :=
  Prepare.action_penalty self * np.linalg_norm action.

(** The first branch of [reward] applies: the step is absorbing and the
    puck is where the sub-problem wants it. *)
Definition absorbing_bonus (self : Prepare.AirHockeyPrepare) (next_state : State)
    (absorbing : bool) : Prop :=
  absorbing = true
  /\ if (Prepare.sub_problem self =? "side")%string
     then Rabs (puck_xy next_state).2 < 0.47
     else (puck_xy next_state).1 >= -0.6.

(** Distance [d] and direction [v = (puck_pos - ee_pos) / d] from the
    end-effector to the puck, for [d <> 0]. *)
Definition distance (puck ee : R * R) : R := np.linalg_norm2 (np.sub2 puck ee).

Definition direction (puck ee : R * R) : R * R :=
  ((puck.1 - ee.1) / distance puck ee, (puck.2 - ee.2) / distance puck ee).

Definition dot (a b : R * R) : R := a.1 * b.1 + a.2 * b.2.

(** [clip(x, 0, 1)] *)
Definition clip01 (x : R) : R := Rmin (Rmax x 0) 1.

(** The sign function: [sign 0 = 0]. *)
Definition sign (y : R) : R :=
  if Rlt_dec y 0 then -1 else if Rlt_dec 0 y then 1 else 0.

(** The pre-hit reward of the sub-problem "side" with the alignment taken
    against [(0, sign puck_y)]. *)
Definition side_shaping_with_sign (puck ee : R * R) : R :=
  exp (-8 * (distance puck ee - 0.08))
  * (clip01 (dot (direction puck ee) (0, sign puck.2))) ^ 2.

(** The Gaussian term of the sub-problem "bottom". *)
Definition gaussian_x (puck_x : R) : R :=
  1 / (sqrt (2 * PI) * 0.1) * exp (- (((puck_x + 0.75) / 0.1) ^ 2) / 2).

(** Two task objects that differ at most in [has_bounce]. *)
Definition agree_but_bounce (a b : Prepare.AirHockeyPrepare) : Prop :=
  Prepare.random_init a = Prepare.random_init b
  /\ Prepare.action_penalty a = Prepare.action_penalty b
  /\ Prepare.sub_problem a = Prepare.sub_problem b
  /\ Prepare.start_range a = Prepare.start_range b
  /\ Prepare.desired_point a = Prepare.desired_point b
  /\ Prepare.ee_end_pos a = Prepare.ee_end_pos b
  /\ Prepare.has_hit a = Prepare.has_hit b
  /\ Prepare.puck_pos a = Prepare.puck_pos b
  /\ Prepare.super a = Prepare.super b.

(** The same object with another value of [sub_problem]. *)
Definition with_sub_problem (self : Prepare.AirHockeyPrepare) (sub : string)
    : Prepare.AirHockeyPrepare :=
  {| Prepare.random_init := Prepare.random_init self;
     Prepare.action_penalty := Prepare.action_penalty self;
     Prepare.sub_problem := sub;
     Prepare.start_range := Prepare.start_range self;
     Prepare.desired_point := Prepare.desired_point self;
     Prepare.ee_end_pos := Prepare.ee_end_pos self;
     Prepare.has_hit := Prepare.has_hit self;
     Prepare.has_bounce := Prepare.has_bounce self;
     Prepare.puck_pos := Prepare.puck_pos self;
     Prepare.super := Prepare.super self |}.

(** The same object after the simulation has moved on to client [c]. *)
Definition with_client (self : Prepare.AirHockeyPrepare) (c : pybullet.Client)
    : Prepare.AirHockeyPrepare :=
  {| Prepare.random_init := Prepare.random_init self;
     Prepare.action_penalty := Prepare.action_penalty self;
     Prepare.sub_problem := Prepare.sub_problem self;
     Prepare.start_range := Prepare.start_range self;
     Prepare.desired_point := Prepare.desired_point self;
     Prepare.ee_end_pos := Prepare.ee_end_pos self;
     Prepare.has_hit := Prepare.has_hit self;
     Prepare.has_bounce := Prepare.has_bounce self;
     Prepare.puck_pos := Prepare.puck_pos self;
     Prepare.super := set_client (Prepare.super self) c |}.

(** Client [c2] reports no contact that client [c1] does not report. *)
Definition no_new_contacts (c1 c2 : pybullet.Client) : Prop :=
  forall bodyA bodyB linkA linkB : Z,
    pybullet.getContactPoints c2 bodyA bodyB linkA linkB <> [] ->
    pybullet.getContactPoints c1 bodyA bodyB linkA linkB <> [].

(** The puck is seen in contact with the named link. *)
Definition touching (parent : AirHockeySingle) (link : string) : Prop :=
  exists n : nat, Prepare.contact_count parent link = Ok n /\ (0 < n)%nat.

Definition striker_link : string := "planar_robot_1/link_striker_ee".

Definition rim_links : list string :=
  ["t_up_rim_l"; "t_up_rim_r"; "t_down_rim_l"; "t_down_rim_r"].

(** The parent object names the puck and the five links, and has an
    initial value for every actuated joint. *)
Definition well_formed (parent : AirHockeySingle) : Prop :=
  is_Some (_model_map parent !! "puck")
  /\ Forall (fun link => is_Some (link_map (_indexer parent) !! link))
            (striker_link :: rim_links)
  /\ (length (action_data (_indexer parent)) <= length (init_state parent))%nat.

(** The joint resets [setup] issues: one for each entry of [action_data],
    with the value of [init_state] at the same index. *)
Definition joint_resets (data : list (Z * Z * Z)) (init : list R) : list pybullet.Call :=
  zip_with (fun d q => pybullet.ResetJointState d.1.1 d.1.2 q) data init.

(** The draws of [np.random.rand(2)] lie in [0, 1). *)
Definition unit_draw (random : Random) : Prop :=
  0 <= (rand random).1 < 1 /\ 0 <= (rand random).2 < 1.

(** The attributes of the object that [reward] reads. *)
Definition reward_reads_same (a b : Prepare.AirHockeyPrepare) : Prop :=
  Prepare.sub_problem a = Prepare.sub_problem b
  /\ Prepare.has_hit a = Prepare.has_hit b
  /\ Prepare.action_penalty a = Prepare.action_penalty b
  /\ Prepare.ee_end_pos a = Prepare.ee_end_pos b.

(** A state seen in the mirror of the lane axis: the y coordinates change
    sign. *)
Definition mirror3 (v : R * R * R) : R * R * R := (v.1.1, - v.1.2, v.2).

Definition mirror (s : State) : State :=
  {| puck_BODY_POS := mirror3 (puck_BODY_POS s);
     puck_BODY_LIN_VEL := mirror3 (puck_BODY_LIN_VEL s);
     link_striker_ee_LINK_POS := mirror3 (link_striker_ee_LINK_POS s) |}.

(** A run of the simulation: before each [_simulation_post_step] the
    physics has moved on to the next client of the list. *)
Fixpoint post_steps (self : Prepare.AirHockeyPrepare) (clients : list pybullet.Client)
    : result Prepare.AirHockeyPrepare :=
  match clients with
  | [] => Ok self
  | c :: rest =>
      let* self' := Prepare._simulation_post_step (with_client self c) in
      post_steps self' rest
  end.

(** Everything of a parent object but its client. *)
Definition same_but_client (p q : AirHockeySingle) : Prop :=
  _model_map p = _model_map q
  /\ _indexer p = _indexer q
  /\ init_state p = init_state q
  /\ _state p = _state q.

(** ** Sample objects *)

Definition state_at (pos vel ee : R * R) : State :=
  {| puck_BODY_POS := (pos.1, pos.2, -0.189);
     puck_BODY_LIN_VEL := (vel.1, vel.2, 0);
     link_striker_ee_LINK_POS := (ee.1, ee.2, -0.189) |}.

Definition quiet_client : pybullet.Client :=
  {| pybullet.getContactPoints := fun _ _ _ _ => [];
     pybullet.calls := [] |}.

Definition table_links : gmap string (Z * Z) :=
  list_to_map [("planar_robot_1/link_striker_ee", (1, 5)%Z);
               ("t_up_rim_l", (0, 1)%Z);
               ("t_up_rim_r", (0, 2)%Z);
               ("t_down_rim_l", (0, 3)%Z);
               ("t_down_rim_r", (0, 4)%Z)].

Definition table_parent (c : pybullet.Client) (s : State) : AirHockeySingle :=
  {| client := c;
     _model_map := {[ "puck" := 2%Z ]};
     _indexer := {| link_map := table_links;
                    action_data := [(1, 1, 0)%Z; (1, 2, 0)%Z; (1, 3, 0)%Z] |};
     init_state := [-0.9273; 0.9273; PI / 2];
     _state := s |}.

Definition task (sub : string) (hit bounce : bool) (c : pybullet.Client) (s : State)
    : Prepare.AirHockeyPrepare :=
  {| Prepare.random_init := false;
     Prepare.action_penalty := 1e-3;
     Prepare.sub_problem := sub;
     Prepare.start_range :=
       if (sub =? "side")%string then Some ((-0.8, -0.4), (0.25, 0.46))
       else if (sub =? "bottom")%string then Some ((-0.9, -0.8), (0.125, 0.46))
       else None;
     Prepare.desired_point := (-0.6, 0);
     Prepare.ee_end_pos := (-8.10001913e-01, -1.43459494e-06);
     Prepare.has_hit := hit;
     Prepare.has_bounce := bounce;
     Prepare.puck_pos := None;
     Prepare.super := table_parent c s |}.

(** A client that reports one contact between the puck and the striker's
    end-effector of [table_links], and none with the rims. *)
Definition striking_client : pybullet.Client :=
  {| pybullet.getContactPoints := fun bodyA bodyB linkA linkB =>
       if ((bodyB =? 1)%Z && (linkB =? 5)%Z)%bool
       then [{| pybullet.bodyUniqueIdA := bodyA;
                pybullet.bodyUniqueIdB := bodyB;
                pybullet.linkIndexA := linkA;
                pybullet.linkIndexB := linkB |}]
       else [];
     pybullet.calls := [] |}.

(** The task of the sub-problem "side" with random initialisation. *)
Definition random_side_task (c : pybullet.Client) (s : State) : Prepare.AirHockeyPrepare :=
  {| Prepare.random_init := true;
     Prepare.action_penalty := 1e-3;
     Prepare.sub_problem := "side";
     Prepare.start_range := Some ((-0.8, -0.4), (0.25, 0.46));
     Prepare.desired_point := (-0.6, 0);
     Prepare.ee_end_pos := (-8.10001913e-01, -1.43459494e-06);
     Prepare.has_hit := true;
     Prepare.has_bounce := false;
     Prepare.puck_pos := None;
     Prepare.super := table_parent c s |}.

(** A parent object whose maps name nothing. *)
Definition nameless_parent (c : pybullet.Client) (s : State) : AirHockeySingle :=
  {| client := c;
     _model_map := ∅;
     _indexer := {| link_map := ∅; action_data := [] |};
     init_state := [];
     _state := s |}.

Definition nameless_task (hit bounce : bool) : Prepare.AirHockeyPrepare :=
  {| Prepare.random_init := false;
     Prepare.action_penalty := 1e-3;
     Prepare.sub_problem := "side";
     Prepare.start_range := Some ((-0.8, -0.4), (0.25, 0.46));
     Prepare.desired_point := (-0.6, 0);
     Prepare.ee_end_pos := (-8.10001913e-01, -1.43459494e-06);
     Prepare.has_hit := hit;
     Prepare.has_bounce := bounce;
     Prepare.puck_pos := None;
     Prepare.super := nameless_parent quiet_client (state_at (-0.6, 0.3) (0, 0) (-0.6, 0.25)) |}.

(** ** Basic facts about the operations *)

Section Comparisons.

Lemma Rltb_lt (x y : R) : Rltb x y = true <-> x < y.
Proof. unfold Rltb. destruct (Rlt_dec x y); split; (congruence || tauto). Qed.

Lemma Rltb_nlt (x y : R) : Rltb x y = false <-> ~ x < y.
Proof. unfold Rltb. destruct (Rlt_dec x y); split; (congruence || tauto). Qed.

Lemma Rgtb_gt (x y : R) : Rgtb x y = true <-> x > y.
Proof. unfold Rgtb. rewrite Rltb_lt. unfold Rgt. tauto. Qed.

Lemma Rgtb_ngt (x y : R) : Rgtb x y = false <-> ~ x > y.
Proof. unfold Rgtb. rewrite Rltb_nlt. unfold Rgt. tauto. Qed.

Lemma Rgeb_ge (x y : R) : Rgeb x y = true <-> x >= y.
Proof. unfold Rgeb. destruct (Rge_dec x y); split; (congruence || tauto). Qed.

Lemma Rgeb_nge (x y : R) : Rgeb x y = false <-> ~ x >= y.
Proof. unfold Rgeb. destruct (Rge_dec x y); split; (congruence || tauto). Qed.

Lemma py_max_Rmax (a b : R) : py_max a b = Rmax a b.
Proof.
    unfold py_max, Rltb, Rmax.
    destruct (Rlt_dec a b), (Rle_dec a b); lra.
Qed.

End Comparisons.

Ltac bool_to_prop :=
  repeat match goal with
  | H : _ && _ = true |- _ => apply andb_true_iff in H; destruct H
  | H : _ || _ = false |- _ => apply orb_false_iff in H; destruct H
  | H : Rltb _ _ = true |- _ => apply Rltb_lt in H
  | H : Rltb _ _ = false |- _ => apply Rltb_nlt in H
  | H : Rgtb _ _ = true |- _ => apply Rgtb_gt in H
  | H : Rgtb _ _ = false |- _ => apply Rgtb_ngt in H
  | H : Rgeb _ _ = true |- _ => apply Rgeb_ge in H
  | H : Rgeb _ _ = false |- _ => apply Rgeb_nge in H
  end.

Ltac case_cmp :=
  repeat match goal with
  | |- context [Rltb ?a ?b] => let E := fresh "E" in destruct (Rltb a b) eqn:E
  | |- context [Rgeb ?a ?b] => let E := fresh "E" in destruct (Rgeb a b) eqn:E
  end;
  bool_to_prop.

Section Norms.

Lemma linalg_norm2_eq (a b : R) : np.linalg_norm2 (a, b) = sqrt (a * a + b * b).
Proof. unfold np.linalg_norm2, np.linalg_norm; simpl. f_equal. lra. Qed.

  (** A vector of norm zero is the zero vector: the only division by zero
      [reward] can perform is [0 / 0]. *)
Lemma linalg_norm2_eq_0 (v : R * R) : np.linalg_norm2 v = 0 <-> v = (0, 0).
Proof.
    destruct v as [a b]. rewrite linalg_norm2_eq. split.
    - intros H. apply sqrt_eq_0 in H; [|nra].
      assert (a = 0) by nra. assert (b = 0) by nra. congruence.
    - intros [= -> ->]. replace (0 * 0 + 0 * 0) with 0 by lra. apply sqrt_0.
Qed.

Lemma sub2_eq_0 (p q : R * R) : np.sub2 p q = (0, 0) <-> p = q.
Proof.
    destruct p as [a b], q as [c d]. unfold np.sub2; simpl. split.
    - intros [= H1 H2]. f_equal; lra.
    - intros [= -> ->]. f_equal; lra.
Qed.

Lemma distance_eq_0 (p q : R * R) : np.linalg_norm2 (np.sub2 p q) = 0 <-> p = q.
Proof. rewrite linalg_norm2_eq_0. apply sub2_eq_0. Qed.

End Norms.


(** ** The reward on an absorbing step *)

Section AbsorbingBonus.

Import Prepare.

Lemma side_eqb (self : AirHockeyPrepare) :
  sub_problem self = "side" -> (sub_problem self =? "side")%string = true.
Proof. intros ->. reflexivity. Qed.

(** C1.  In the sub-problem "side", on an absorbing step whose puck
    satisfies |puck_y| < 0.47, [reward] returns
    100 * exp(-2 * ||puck_velocity||): the value depends neither on
    [has_hit] nor on the action, and no action penalty is subtracted. *)
Theorem reward_side_absorbing_bonus
    (self : AirHockeyPrepare) (state : State) (action : list R) (next_state : State) :
  sub_problem self = "side" ->
  Rabs (puck_xy next_state).2 < 0.47 ->
  reward self state action next_state true
  = np.fin (100 * exp (-2 * np.linalg_norm2 (puck_velocity next_state))).
Proof.
  intros Hside Hy. unfold reward. rewrite (side_eqb self Hside).
  apply Rltb_lt in Hy. unfold puck_xy in Hy. rewrite Hy. reflexivity.
Qed.

End AbsorbingBonus.

Lemma reward_side_absorbing_bonus_witness :
  Prepare.reward (task "side" true false quiet_client (state_at (0.1, 0.2) (0, 0) (-0.5, 0)))
    (state_at (-0.6, 0.3) (0, 0) (-0.8, 0)) [1; 2; 2]
    (state_at (0.1, 0.2) (0.3, 0.4) (-0.5, 0)) true
  = np.fin (100 * exp (-2 * np.linalg_norm2
                              (puck_velocity (state_at (0.1, 0.2) (0.3, 0.4) (-0.5, 0))))).
Proof.
  apply reward_side_absorbing_bonus.
  - reflexivity.
  - simpl. rewrite Rabs_pos_eq; lra.
Defined.

(** ** The reward of the sub-problem "side" *)

Section SideReward.

Import Prepare.

Lemma true_divide_fin (x d : R) : d <> 0 -> np.true_divide x d = np.fin (x / d).
Proof. intros Hd. unfold np.true_divide. destruct (Req_dec_T d 0); [contradiction|reflexivity]. Qed.

Lemma true_divide_0 (x : R) : np.true_divide x 0 = np.nan.
Proof. unfold np.true_divide. destruct (Req_dec_T 0 0); [reflexivity|lra]. Qed.

(** C4.  In the sub-problem "side", when the absorbing bonus does not
    apply and the puck has been hit: with puck_x < -0.35 and
    |puck_y| < 0.47 the reward is
    max(0, 1 - 10*(exp(|puck_vx|) - 1)) + (0.5 - ||ee_pos - ee_end_pos||) + 1
    minus the action penalty, and otherwise it is 0 minus the action
    penalty; so it is at puck_x = -0.2. *)
Theorem reward_side_after_hit
    (self : AirHockeyPrepare) (state : State) (action : list R) (next_state : State)
    (absorbing : bool) :
  sub_problem self = "side" ->
  ~ (absorbing = true /\ Rabs (puck_xy next_state).2 < 0.47) ->
  has_hit self = true ->
  ((puck_xy next_state).1 < -0.35 /\ Rabs (puck_xy next_state).2 < 0.47 ->
   reward self state action next_state absorbing
   = np.fin (Rmax 0 (1 - 10 * (exp (Rabs (puck_velocity next_state).1) - 1))
             + (0.5 - np.linalg_norm2 (np.sub2 (ee_xy next_state) (ee_end_pos self)))
             + 1
             - penalty self action))
  /\ (~ ((puck_xy next_state).1 < -0.35 /\ Rabs (puck_xy next_state).2 < 0.47) ->
      reward self state action next_state absorbing = np.fin (0 - penalty self action))
  /\ ((puck_xy next_state).1 = -0.2 ->
      reward self state action next_state absorbing = np.fin (0 - penalty self action)).
Proof.
  intros Hside Hbonus Hhit.
  unfold reward, puck_xy, puck_velocity, ee_xy, penalty in *.
  rewrite (side_eqb self Hside), Hhit, py_max_Rmax.
  repeat split; intros H; destruct absorbing; simpl in *; case_cmp;
    try reflexivity; exfalso; (tauto || lra).
Qed.

End SideReward.

Lemma reward_side_after_hit_witness :
  Prepare.reward (task "side" true false quiet_client (state_at (-0.5, 0.2) (0, 0) (-0.6, 0)))
    (state_at (-0.5, 0.2) (0, 0) (-0.6, 0)) [3; 4]
    (state_at (-0.2, 0.2) (0.1, 0) (-0.6, 0)) false
  = np.fin (0 - penalty (task "side" true false quiet_client
                           (state_at (-0.5, 0.2) (0, 0) (-0.6, 0))) [3; 4]).
Proof.
  apply reward_side_after_hit.
  - reflexivity.
  - intros [H _]. discriminate H.
  - reflexivity.
  - reflexivity.
Defined.

Section SideShaping.

Import Prepare.

Lemma copysign_1 (y : R) : np.copysign 1 y = if Rlt_dec y 0 then -1 else 1.
Proof. unfold np.copysign. rewrite Rabs_R1. destruct (Rlt_dec y 0); lra. Qed.

Lemma not_bonus_side (absorbing : bool) (y : R) :
  ~ (absorbing = true /\ Rabs y < 0.47) -> absorbing && Rltb (Rabs y) 0.47 = false.
Proof.
  intros H. destruct absorbing; [|reflexivity]. simpl.
  apply Rltb_nlt. tauto.
Qed.

(** The value of the pre-hit branch of "side" when the division is by a
    non-zero distance. *)
Lemma side_shaping_value
    (self : AirHockeyPrepare) (state : State) (action : list R) (next_state : State)
    (absorbing : bool) :
  sub_problem self = "side" ->
  ~ (absorbing = true /\ Rabs (puck_xy next_state).2 < 0.47) ->
  has_hit self = false ->
  puck_xy next_state <> ee_xy next_state ->
  reward self state action next_state absorbing
  = np.fin (exp (-8 * (distance (puck_xy next_state) (ee_xy next_state) - 0.08))
            * (clip01 (dot (direction (puck_xy next_state) (ee_xy next_state))
                           (0, if Rlt_dec (puck_xy next_state).2 0 then -1 else 1))) ^ 2
            - penalty self action).
Proof.
  intros Hside Hbonus Hhit Hapart.
  assert (Hd : distance (puck_xy next_state) (ee_xy next_state) <> 0).
  { unfold distance. rewrite distance_eq_0. exact Hapart. }
  unfold reward. rewrite (side_eqb self Hside), Hhit.
  fold (puck_xy next_state) (ee_xy next_state) (puck_velocity next_state).
  rewrite (not_bonus_side _ _ Hbonus).
  fold (distance (puck_xy next_state) (ee_xy next_state)).
  unfold np.true_divide2. rewrite !true_divide_fin by exact Hd.
  rewrite copysign_1. unfold penalty, clip01, dot, direction. simpl.
  f_equal. ring.
Qed.

(** C5 (amended).  In the sub-problem "side", when the absorbing bonus does
    not apply, the puck has not been hit and the distance d between puck
    and end-effector is not zero, the reward is exp(-8*(d - 0.08)) * cos^2
    minus the action penalty, with d = ||puck_pos - ee_pos||,
    v = (puck_pos - ee_pos)/d and cos = clip(v . (0, s), 0, 1), where the
    factor s is +1 or -1 and never 0: +1 for puck_y > 0, -1 for
    puck_y < 0.  With puck_pos = (-0.7, 0.3) and ee_pos = (-0.7, 0.08)
    the reward before the penalty is exp(-8*(0.22 - 0.08)) = exp(-1.12). *)
Theorem reward_side_before_hit
    (self : AirHockeyPrepare) (state : State) (action : list R) (next_state : State)
    (absorbing : bool) :
  sub_problem self = "side" ->
  ~ (absorbing = true /\ Rabs (puck_xy next_state).2 < 0.47) ->
  has_hit self = false ->
  distance (puck_xy next_state) (ee_xy next_state) <> 0 ->
  (exists s : R,
     (s = 1 \/ s = -1)
     /\ ((puck_xy next_state).2 > 0 -> s = 1)
     /\ ((puck_xy next_state).2 < 0 -> s = -1)
     /\ reward self state action next_state absorbing
        = np.fin (exp (-8 * (distance (puck_xy next_state) (ee_xy next_state) - 0.08))
                  * (clip01 (dot (direction (puck_xy next_state) (ee_xy next_state))
                                 (0, s))) ^ 2
                  - penalty self action))
  /\ (puck_xy next_state = (-0.7, 0.3) -> ee_xy next_state = (-0.7, 0.08) ->
      reward self state action next_state absorbing
      = np.fin (exp (-8 * (0.22 - 0.08)) - penalty self action)
      /\ exp (-8 * (0.22 - 0.08)) = exp (-1.12)).
Proof.
  intros Hside Hbonus Hhit Hd.
  assert (Hapart : puck_xy next_state <> ee_xy next_state).
  { intros Hsame. apply Hd. unfold distance. rewrite distance_eq_0. exact Hsame. }
  pose proof (side_shaping_value self state action next_state absorbing
                Hside Hbonus Hhit Hapart) as Hmain.
  split.
  { exists (if Rlt_dec (puck_xy next_state).2 0 then -1 else 1).
    split; [destruct (Rlt_dec (puck_xy next_state).2 0); auto|].
    split; [intros Hy; destruct (Rlt_dec (puck_xy next_state).2 0); [lra|reflexivity]|].
    split; [intros Hy; destruct (Rlt_dec (puck_xy next_state).2 0); [reflexivity|lra]|].
    exact Hmain. }
  intros Hp He. rewrite Hmain. split; [|f_equal; lra].
  assert (H22 : distance (-0.7, 0.3) (-0.7, 0.08) = 0.22).
  { unfold distance, np.sub2. rewrite linalg_norm2_eq. simpl.
    replace ((-0.7 - -0.7) * (-0.7 - -0.7) + (0.3 - 0.08) * (0.3 - 0.08))
      with (0.22 * 0.22) by lra.
    apply sqrt_square. lra. }
  rewrite Hp, He. unfold direction, dot, clip01. rewrite H22. simpl.
  destruct (Rlt_dec 0.3 0) as [Hneg|_]; [lra|].
  replace ((-0.7 - -0.7) / 0.22 * 0 + (0.3 - 0.08) / 0.22 * 1) with 1 by lra.
  rewrite Rmax_left by lra. rewrite Rmin_left by lra.
  f_equal. ring.
Qed.

End SideShaping.

Lemma reward_side_before_hit_witness :
  Prepare.reward (task "side" false false quiet_client (state_at (-0.7, 0.3) (0, 0) (-0.7, 0.08)))
    (state_at (-0.7, 0.3) (0, 0) (-0.7, 0.08)) [3; 4]
    (state_at (-0.7, 0.3) (0, 0) (-0.7, 0.08)) false
  = np.fin (exp (-8 * (0.22 - 0.08))
            - penalty (task "side" false false quiet_client
                         (state_at (-0.7, 0.3) (0, 0) (-0.7, 0.08))) [3; 4]).
Proof.
  assert (Hside : Prepare.sub_problem
            (task "side" false false quiet_client (state_at (-0.7, 0.3) (0, 0) (-0.7, 0.08)))
          = "side") by reflexivity.
  assert (Hbonus : ~ (false = true
            /\ Rabs (puck_xy (state_at (-0.7, 0.3) (0, 0) (-0.7, 0.08))).2 < 0.47)).
  { intros [H _]. discriminate H. }
  assert (Hd : distance (puck_xy (state_at (-0.7, 0.3) (0, 0) (-0.7, 0.08)))
                        (ee_xy (state_at (-0.7, 0.3) (0, 0) (-0.7, 0.08))) <> 0).
  { unfold distance. rewrite distance_eq_0.
    unfold puck_xy, ee_xy; simpl. intros [= H]. lra. }
  destruct (reward_side_before_hit _ (state_at (-0.7, 0.3) (0, 0) (-0.7, 0.08)) [3; 4] _ false
              Hside Hbonus eq_refl Hd) as [_ Hat].
  apply Hat; reflexivity.
Defined.

Section SideShapingAtZero.

Import Prepare.

Lemma linalg_norm_zeros : np.linalg_norm [0; 0; 0] = 0.
Proof.
  unfold np.linalg_norm; simpl.
  replace (0 * 0 + (0 * 0 + (0 * 0 + 0))) with 0 by lra. apply sqrt_0.
Qed.

Lemma distance_below : distance (-0.7, 0) (-0.7, -0.1) = 0.1.
Proof.
  unfold distance, np.sub2. rewrite linalg_norm2_eq. simpl.
  replace ((-0.7 - -0.7) * (-0.7 - -0.7) + (0 - -0.1) * (0 - -0.1))
    with (0.1 * 0.1) by lra.
  apply sqrt_square. lra.
Qed.

(** C5, as stated with [sign]: with the puck on the lane axis (puck_y = 0,
    the positive zero) and the end-effector right below it, [reward]
    returns exp(-0.16), as [np.copysign(1, 0)] is 1, where the formula
    with sign(puck_y) = 0 gives 0. *)
Lemma reward_side_before_hit_sign_counterexample :
  Prepare.reward (task "side" false false quiet_client (state_at (-0.7, 0) (0, 0) (-0.7, -0.1)))
    (state_at (-0.7, 0) (0, 0) (-0.7, -0.1)) [0; 0; 0]
    (state_at (-0.7, 0) (0, 0) (-0.7, -0.1)) false
  = np.fin (exp (-0.16))
  /\ side_shaping_with_sign (puck_xy (state_at (-0.7, 0) (0, 0) (-0.7, -0.1)))
                            (ee_xy (state_at (-0.7, 0) (0, 0) (-0.7, -0.1)))
     - penalty (task "side" false false quiet_client (state_at (-0.7, 0) (0, 0) (-0.7, -0.1)))
               [0; 0; 0]
     = 0
  /\ np.fin (exp (-0.16)) <> np.fin 0.
Proof.
  split; [|split].
  - rewrite side_shaping_value;
      [|reflexivity|intros [H _]; discriminate H|reflexivity
       |unfold puck_xy, ee_xy; simpl; intros [= H]; lra].
    unfold penalty, puck_xy, ee_xy, direction, dot, clip01. simpl.
    unfold slice2; simpl.
    rewrite distance_below, linalg_norm_zeros.
    destruct (Rlt_dec 0 0) as [H|_]; [lra|].
    replace ((-0.7 - -0.7) / 0.1 * 0 + (0 - -0.1) / 0.1 * 1) with 1 by lra.
    rewrite Rmax_left by lra. rewrite Rmin_left by lra.
    f_equal. replace (-8 * (0.1 - 0.08)) with (-0.16) by lra. lra.
  - unfold side_shaping_with_sign, penalty, puck_xy, ee_xy, sign, dot, clip01. simpl.
    rewrite linalg_norm_zeros.
    destruct (Rlt_dec 0 0) as [H|_]; [lra|].
    replace ((direction (-0.7, 0) (-0.7, -0.1)).1 * 0
             + (direction (-0.7, 0) (-0.7, -0.1)).2 * 0) with 0 by lra.
    rewrite Rmax_left by lra. rewrite Rmin_left by lra. lra.
  - intros [= H]. pose proof (exp_pos (-0.16)). lra.
Qed.

End SideShapingAtZero.

(** ** The reward of the sub-problem "bottom" *)

Section BottomReward.

Import Prepare.

Lemma bottom_eqb (self : AirHockeyPrepare) :
  sub_problem self = "bottom" -> (sub_problem self =? "side")%string = false.
Proof. intros ->. reflexivity. Qed.

Lemma copysign_08 (y : R) : np.copysign 0.8 y = if Rlt_dec y 0 then -0.8 else 0.8.
Proof. unfold np.copysign. rewrite Rabs_pos_eq by lra. destruct (Rlt_dec y 0); lra. Qed.

Lemma gaussian_x_scale_pos : 0 < 1 / (sqrt (2 * PI) * 0.1).
Proof.
  assert (0 < sqrt (2 * PI)) by (apply sqrt_lt_R0; pose proof PI_RGT_0; lra).
  apply Rdiv_lt_0_compat; nra.
Qed.

Lemma gaussian_x_peak : gaussian_x (-0.75) = 1 / (sqrt (2 * PI) * 0.1).
Proof.
  unfold gaussian_x.
  replace (- ((-0.75 + 0.75) / 0.1) ^ 2 / 2) with 0 by (simpl; lra).
  rewrite exp_0. lra.
Qed.

Lemma gaussian_x_below_peak (x : R) : x <> -0.75 -> gaussian_x x < gaussian_x (-0.75).
Proof.
  intros Hx. rewrite gaussian_x_peak. unfold gaussian_x.
  pose proof gaussian_x_scale_pos as Hs.
  assert (Hneg : - ((x + 0.75) / 0.1) ^ 2 / 2 < 0).
  { assert (Hne : (x + 0.75) / 0.1 <> 0) by (intros H0; apply Hx; lra).
    pose proof (Rsqr_pos_lt _ Hne) as Hsq. unfold Rsqr in Hsq. simpl. lra. }
  apply exp_increasing in Hneg. rewrite exp_0 in Hneg.
  rewrite <- (Rmult_1_r (1 / (sqrt (2 * PI) * 0.1))) at 2.
  apply Rmult_lt_compat_l; assumption.
Qed.

(** The value of the pre-hit branch of the other sub-problems when the
    division is by a non-zero distance. *)
Lemma bottom_shaping_value
    (self : AirHockeyPrepare) (state : State) (action : list R) (next_state : State)
    (absorbing : bool) :
  (sub_problem self =? "side")%string = false ->
  ~ (absorbing = true /\ (puck_xy next_state).1 >= -0.6) ->
  has_hit self = false ->
  puck_xy next_state <> ee_xy next_state ->
  reward self state action next_state absorbing
  = np.fin (exp (-8 * (distance (puck_xy next_state) (ee_xy next_state) - 0.08))
            * (Rmax
                 (clip01 (dot (direction (puck_xy next_state) (ee_xy next_state))
                              (0.2, if Rlt_dec (puck_xy next_state).2 0 then -0.8 else 0.8)))
                 (clip01 (dot (direction (puck_xy next_state) (ee_xy next_state))
                              (-1, 0)))) ^ 2
            - penalty self action).
Proof.
  intros Hsub Hbonus Hhit Hapart.
  assert (Hd : distance (puck_xy next_state) (ee_xy next_state) <> 0).
  { unfold distance. rewrite distance_eq_0. exact Hapart. }
  assert (Hb : absorbing && Rgeb (puck_xy next_state).1 (-0.6) = false).
  { destruct absorbing; [|reflexivity]. simpl. apply Rgeb_nge. tauto. }
  unfold reward. rewrite Hsub, Hhit.
  fold (puck_xy next_state) (ee_xy next_state) (puck_velocity next_state).
  rewrite Hb.
  fold (distance (puck_xy next_state) (ee_xy next_state)).
  unfold np.true_divide2. rewrite !true_divide_fin by exact Hd.
  rewrite copysign_08. unfold penalty, clip01, dot, direction. simpl.
  rewrite py_max_Rmax. f_equal. ring.
Qed.

(** C6.  The reward of the sub-problem "bottom": an absorbing step with
    puck_x >= -0.6 returns 100 * exp(-2*||puck_velocity||) with no action
    penalty; otherwise, after a hit, the reward before the penalty is
    r_x + r_y + r_ee + 1 inside the region -0.9 < puck_x < -0.6,
    |puck_y| < 0.47 (r_x the Gaussian term, r_y = 2 - |puck_vy|,
    r_ee = 0.5*exp(-3*||ee_pos - ee_end_pos||)) and 0 outside it; before a
    hit it is exp(-8*(d - 0.08)) times the square of the larger of the
    two alignments clip(v . (0.2, +-0.8), 0, 1), the sign being that of
    the puck's side, and clip(v . (-1, 0), 0, 1); the action penalty is
    subtracted on all these paths.  The Gaussian term is largest at
    puck_x = -0.75, and only there. *)
Theorem reward_bottom_piecewise
    (self : AirHockeyPrepare) (state : State) (action : list R) (next_state : State)
    (absorbing : bool) :
  sub_problem self = "bottom" ->
  (absorbing = true /\ (puck_xy next_state).1 >= -0.6 ->
   reward self state action next_state absorbing
   = np.fin (100 * exp (-2 * np.linalg_norm2 (puck_velocity next_state))))
  /\ (~ (absorbing = true /\ (puck_xy next_state).1 >= -0.6) ->
      (has_hit self = true ->
       -0.9 < (puck_xy next_state).1 < -0.6 /\ Rabs (puck_xy next_state).2 < 0.47 ->
       reward self state action next_state absorbing
       = np.fin (gaussian_x (puck_xy next_state).1
                 + (2 - Rabs (puck_velocity next_state).2)
                 + 0.5 * exp (-3 * np.linalg_norm2
                                     (np.sub2 (ee_xy next_state) (ee_end_pos self)))
                 + 1
                 - penalty self action))
      /\ (has_hit self = true ->
          ~ (-0.9 < (puck_xy next_state).1 < -0.6 /\ Rabs (puck_xy next_state).2 < 0.47) ->
          reward self state action next_state absorbing = np.fin (0 - penalty self action))
      /\ (has_hit self = false ->
          puck_xy next_state <> ee_xy next_state ->
          reward self state action next_state absorbing
          = np.fin (exp (-8 * (distance (puck_xy next_state) (ee_xy next_state) - 0.08))
                    * (Rmax
                         (clip01 (dot (direction (puck_xy next_state) (ee_xy next_state))
                                      (0.2, if Rlt_dec (puck_xy next_state).2 0
                                            then -0.8 else 0.8)))
                         (clip01 (dot (direction (puck_xy next_state) (ee_xy next_state))
                                      (-1, 0)))) ^ 2
                    - penalty self action)))
  /\ (forall x : R, x <> -0.75 -> gaussian_x x < gaussian_x (-0.75)).
Proof.
  intros Hbottom. pose proof (bottom_eqb self Hbottom) as Hsub.
  split; [|split; [|exact gaussian_x_below_peak]].
  - intros [-> Hx]. unfold reward. rewrite Hsub.
    apply Rgeb_ge in Hx. unfold puck_xy in Hx. rewrite Hx. reflexivity.
  - intros Hbonus. split; [|split].
    + intros Hhit Hregion.
      unfold reward, puck_xy, puck_velocity, ee_xy, penalty, gaussian_x, np.power, np.pi,
        Rgtb in *.
      rewrite Hsub, Hhit.
      destruct absorbing; simpl in *; case_cmp; try reflexivity; exfalso; (tauto || lra).
    + intros Hhit Hregion.
      unfold reward, puck_xy, puck_velocity, ee_xy, penalty, Rgtb in *.
      rewrite Hsub, Hhit.
      destruct absorbing; simpl in *; case_cmp; try reflexivity; exfalso; (tauto || lra).
    + intros Hhit Hapart. apply bottom_shaping_value; assumption.
Qed.

End BottomReward.

Lemma reward_bottom_piecewise_witness :
  Prepare.reward (task "bottom" true false quiet_client (state_at (-0.85, 0.3) (0, 0) (-0.8, 0)))
    (state_at (-0.85, 0.3) (0, 0) (-0.8, 0)) [3; 4]
    (state_at (-0.5, 0.1) (0.3, 0.4) (-0.8, 0)) true
  = np.fin (100 * exp (-2 * np.linalg_norm2
                              (puck_velocity (state_at (-0.5, 0.1) (0.3, 0.4) (-0.8, 0)))))
  /\ Prepare.reward (task "bottom" true false quiet_client (state_at (-0.85, 0.3) (0, 0) (-0.8, 0)))
       (state_at (-0.85, 0.3) (0, 0) (-0.8, 0)) [3; 4]
       (state_at (-0.5, 0.1) (0.3, 0.4) (-0.8, 0)) false
     = np.fin (0 - penalty (task "bottom" true false quiet_client
                              (state_at (-0.85, 0.3) (0, 0) (-0.8, 0))) [3; 4]).
Proof.
  split.
  - apply (reward_bottom_piecewise
             (task "bottom" true false quiet_client (state_at (-0.85, 0.3) (0, 0) (-0.8, 0)))
             (state_at (-0.85, 0.3) (0, 0) (-0.8, 0)) [3; 4]
             (state_at (-0.5, 0.1) (0.3, 0.4) (-0.8, 0)) true eq_refl).
    split; [reflexivity|]. unfold puck_xy; simpl. lra.
  - apply (reward_bottom_piecewise
             (task "bottom" true false quiet_client (state_at (-0.85, 0.3) (0, 0) (-0.8, 0)))
             (state_at (-0.85, 0.3) (0, 0) (-0.8, 0)) [3; 4]
             (state_at (-0.5, 0.1) (0.3, 0.4) (-0.8, 0)) false eq_refl).
    + intros [H _]. discriminate H.
    + reflexivity.
    + unfold puck_xy; simpl. intros [[_ H] _]. lra.
Defined.

(** ** When the reward is a number *)

Section Finite.

Import Prepare.

Lemma pair_eq_dec (p q : R * R) : {p = q} + {p <> q}.
Proof.
  destruct p as [a b], q as [c d].
  destruct (Req_dec_T a c) as [->|Ha]; [|right; congruence].
  destruct (Req_dec_T b d) as [->|Hb]; [left; reflexivity|right; congruence].
Qed.

Lemma not_bonus_test (self : AirHockeyPrepare) (next_state : State) (absorbing : bool) :
  ~ absorbing_bonus self next_state absorbing ->
  (if (sub_problem self =? "side")%string
   then absorbing && Rltb (Rabs (puck_xy next_state).2) 0.47
   else absorbing && Rgeb (puck_xy next_state).1 (-0.6)) = false.
Proof.
  unfold absorbing_bonus. intros H.
  destruct (sub_problem self =? "side")%string, absorbing; try reflexivity; simpl.
  - apply Rltb_nlt. tauto.
  - apply Rgeb_nge. tauto.
Qed.

Lemma bonus_test (self : AirHockeyPrepare) (next_state : State) (absorbing : bool) :
  absorbing_bonus self next_state absorbing ->
  (if (sub_problem self =? "side")%string
   then absorbing && Rltb (Rabs (puck_xy next_state).2) 0.47
   else absorbing && Rgeb (puck_xy next_state).1 (-0.6)) = true.
Proof.
  unfold absorbing_bonus. intros [-> H].
  destruct (sub_problem self =? "side")%string; simpl.
  - apply Rltb_lt. exact H.
  - apply Rgeb_ge. exact H.
Qed.

(** With puck and end-effector at the same place the pre-hit branch
    divides zero by zero, and the [nan] reaches the result. *)
Lemma reward_coincident
    (self : AirHockeyPrepare) (state : State) (action : list R) (next_state : State)
    (absorbing : bool) :
  ~ absorbing_bonus self next_state absorbing ->
  has_hit self = false ->
  puck_xy next_state = ee_xy next_state ->
  reward self state action next_state absorbing = np.nan.
Proof.
  intros Hbonus Hhit Hsame. apply not_bonus_test in Hbonus.
  assert (Hd : distance (puck_xy next_state) (ee_xy next_state) = 0).
  { unfold distance. rewrite distance_eq_0. exact Hsame. }
  unfold reward. rewrite Hhit.
  fold (puck_xy next_state) (ee_xy next_state) (puck_velocity next_state).
  fold (distance (puck_xy next_state) (ee_xy next_state)).
  rewrite Hd. unfold np.true_divide2. rewrite !true_divide_0.
  destruct (sub_problem self =? "side")%string; rewrite Hbonus; reflexivity.
Qed.

(** C8 (amended).  The division of the pre-hit branch is not guarded: when
    the absorbing bonus does not apply, the puck has not been hit and
    puck and end-effector are at the same place, [reward] divides zero by
    zero and returns [nan], not a finite number, in either sub-problem
    and whatever the action. *)
Theorem reward_unguarded
    (self : AirHockeyPrepare) (state : State) (action : list R) (next_state : State)
    (absorbing : bool) :
  ~ absorbing_bonus self next_state absorbing ->
  has_hit self = false ->
  puck_xy next_state = ee_xy next_state ->
  reward self state action next_state absorbing = np.nan
  /\ np.isfinite (reward self state action next_state absorbing) = false.
Proof.
  intros Hbonus Hhit Hsame.
  rewrite (reward_coincident self state action next_state absorbing Hbonus Hhit Hsame).
  split; reflexivity.
Qed.

(** C8, as stated: before a hit, with puck and end-effector at the same
    place, the reward is not a finite number. *)
Lemma reward_coincident_counterexample :
  reward (task "side" false false quiet_client (state_at (-0.7, 0.3) (0, 0) (-0.7, 0.3)))
    (state_at (-0.7, 0.3) (0, 0) (-0.7, 0.3)) [0; 0; 0]
    (state_at (-0.7, 0.3) (0, 0) (-0.7, 0.3)) false
  = np.nan
  /\ np.isfinite
       (reward (task "side" false false quiet_client (state_at (-0.7, 0.3) (0, 0) (-0.7, 0.3)))
          (state_at (-0.7, 0.3) (0, 0) (-0.7, 0.3)) [0; 0; 0]
          (state_at (-0.7, 0.3) (0, 0) (-0.7, 0.3)) false)
     = false.
Proof.
  assert (H : reward (task "side" false false quiet_client
                        (state_at (-0.7, 0.3) (0, 0) (-0.7, 0.3)))
                (state_at (-0.7, 0.3) (0, 0) (-0.7, 0.3)) [0; 0; 0]
                (state_at (-0.7, 0.3) (0, 0) (-0.7, 0.3)) false
              = np.nan).
  { apply reward_coincident.
    - intros [Habs _]. discriminate Habs.
    - reflexivity.
    - reflexivity. }
  split; [exact H|]. rewrite H. reflexivity.
Qed.

End Finite.

Lemma reward_unguarded_witness :
  Prepare.reward (task "bottom" false false quiet_client (state_at (-0.85, 0.3) (0, 0) (-0.85, 0.3)))
    (state_at (-0.85, 0.3) (0, 0) (-0.8, 0)) [3; 4]
    (state_at (-0.85, 0.3) (0, 0) (-0.85, 0.3)) true
  = np.nan
  /\ np.isfinite
       (Prepare.reward
          (task "bottom" false false quiet_client (state_at (-0.85, 0.3) (0, 0) (-0.85, 0.3)))
          (state_at (-0.85, 0.3) (0, 0) (-0.8, 0)) [3; 4]
          (state_at (-0.85, 0.3) (0, 0) (-0.85, 0.3)) true)
     = false.
Proof.
  apply reward_unguarded.
  - intros [_ H]. unfold puck_xy in H; simpl in H. lra.
  - reflexivity.
  - reflexivity.
Defined.

(** ** What the reward does not read, and the other sub-problems *)

Section Dispatch.

Import Prepare.

(** C9.  [reward] does not read [has_bounce]: two task objects that agree
    on everything else get the same reward for the same arguments. *)
Theorem reward_ignores_has_bounce
    (a b : AirHockeyPrepare) (state : State) (action : list R) (next_state : State)
    (absorbing : bool) :
  agree_but_bounce a b ->
  reward a state action next_state absorbing = reward b state action next_state absorbing.
Proof.
  destruct a, b. unfold agree_but_bounce. simpl.
  intros (? & ? & ? & ? & ? & ? & ? & ? & ?). subst.
  reflexivity.
Qed.

Variable super_is_absorbing : AirHockeySingle -> State -> bool.

(** C10.  For a [sub_problem] other than "side": the constructor returns an
    object whenever the parent's does, with [start_range] left [None] when
    the value is not "bottom" either, and [reward] and [is_absorbing] give
    what they give with [sub_problem] set to "bottom". *)
Theorem other_sub_problem_as_bottom (sub : string) :
  sub <> "side" ->
  (forall (parent : AirHockeySingle) (random_init : bool) (action_penalty : R),
     exists self : AirHockeyPrepare,
       __init__ (Ok parent) random_init action_penalty sub = Ok self
       /\ sub_problem self = sub
       /\ (sub <> "bottom" -> start_range self = None))
  /\ (forall (self : AirHockeyPrepare) (state : State) (action : list R)
             (next_state : State) (absorbing : bool),
        sub_problem self = sub ->
        reward self state action next_state absorbing
        = reward (with_sub_problem self "bottom") state action next_state absorbing)
  /\ (forall (self : AirHockeyPrepare) (state : State),
        sub_problem self = sub ->
        is_absorbing super_is_absorbing self state
        = is_absorbing super_is_absorbing (with_sub_problem self "bottom") state).
Proof.
  intros Hsub. apply String.eqb_neq in Hsub. split; [|split].
  - intros parent ri ap. eexists. split; [reflexivity|]. simpl. split; [reflexivity|].
    intros Hb. apply String.eqb_neq in Hb. rewrite Hsub, Hb. reflexivity.
  - intros self state action next_state absorbing <-.
    unfold reward. simpl. rewrite Hsub. reflexivity.
  - intros self state <-.
    unfold is_absorbing. simpl. rewrite Hsub. reflexivity.
Qed.

End Dispatch.

Lemma reward_ignores_has_bounce_witness :
  Prepare.reward (task "side" true false quiet_client (state_at (-0.5, 0.2) (0, 0) (-0.6, 0)))
    (state_at (-0.5, 0.2) (0, 0) (-0.6, 0)) [3; 4]
    (state_at (-0.5, 0.2) (0.1, 0) (-0.6, 0)) false
  = Prepare.reward (task "side" true true quiet_client (state_at (-0.5, 0.2) (0, 0) (-0.6, 0)))
      (state_at (-0.5, 0.2) (0, 0) (-0.6, 0)) [3; 4]
      (state_at (-0.5, 0.2) (0.1, 0) (-0.6, 0)) false.
Proof.
  apply reward_ignores_has_bounce.
  unfold agree_but_bounce. simpl. repeat split; reflexivity.
Defined.

Lemma other_sub_problem_as_bottom_witness :
  exists self : Prepare.AirHockeyPrepare,
    Prepare.__init__ (Ok (table_parent quiet_client (state_at (-0.85, 0.3) (0, 0) (-0.8, 0))))
      false 1e-3 "top"
    = Ok self
    /\ Prepare.sub_problem self = "top"
    /\ Prepare.start_range self = None.
Proof.
  assert (Hside : "top" <> "side") by discriminate.
  assert (Hbottom : "top" <> "bottom") by discriminate.
  destruct (other_sub_problem_as_bottom (fun _ _ => false) "top" Hside) as [Hinit _].
  destruct (Hinit (table_parent quiet_client (state_at (-0.85, 0.3) (0, 0) (-0.8, 0)))
                  false 1e-3) as (self & Hok & Hsub & Hrange).
  exists self. split; [exact Hok|]. split; [exact Hsub|]. exact (Hrange Hbottom).
Defined.

(** ** Termination *)

Section Termination.

Import Prepare.

Variable super_is_absorbing : AirHockeySingle -> State -> bool.

Lemma crossed_test (s : State) :
  (let puck_pos := slice2 (get_sim_state s puck__BODY_POS) in
   Rgtb puck_pos.1 0 || Rltb (Rabs puck_pos.2) 0.01) = true
  <-> crossed s.
Proof.
  unfold crossed, puck_xy. cbv zeta.
  rewrite orb_true_iff, Rgtb_gt, Rltb_lt. tauto.
Qed.

(** The cases of [is_absorbing], as the method computes them: it returns
    true when the parent's check of its argument does.  Otherwise, with
    the puck position read from the object's own current state
    [self._state] and not from the argument: for "side" it returns true
    when [has_hit] holds and (puck_x > 0 or |puck_y| < 0.01), and else the
    value of [has_bounce]; for "bottom" it returns true under the same
    condition and else false. *)
Theorem is_absorbing_cases (self : AirHockeyPrepare) (state : State) :
  (super_is_absorbing (super self) state = true ->
   is_absorbing super_is_absorbing self state = true)
  /\ (super_is_absorbing (super self) state = false ->
      (sub_problem self = "side" ->
       (has_hit self = true /\ crossed (_state (super self)) ->
        is_absorbing super_is_absorbing self state = true)
       /\ (~ (has_hit self = true /\ crossed (_state (super self))) ->
           is_absorbing super_is_absorbing self state = has_bounce self))
      /\ (sub_problem self = "bottom" ->
          (has_hit self = true /\ crossed (_state (super self)) ->
           is_absorbing super_is_absorbing self state = true)
          /\ (~ (has_hit self = true /\ crossed (_state (super self))) ->
              is_absorbing super_is_absorbing self state = false))).
Proof.
  unfold is_absorbing.
  pose proof (crossed_test (_state (super self))) as Hc. cbv zeta in Hc.
  split.
  - intros ->. reflexivity.
  - intros ->.
    split; intros Hsub; rewrite Hsub; simpl String.eqb; cbv iota zeta;
      destruct (has_hit self);
      match goal with
      | |- context [Rgtb ?x 0 || ?t] => destruct (Rgtb x 0 || t) eqn:Hb
      | _ => idtac
      end;
      split; intros H; try reflexivity;
      try (destruct H as [H _]; discriminate H).
    + exfalso. apply H. split; [reflexivity|]. apply Hc. reflexivity.
    + destruct H as [_ H]. apply Hc in H. discriminate H.
    + exfalso. apply H. split; [reflexivity|]. apply Hc. reflexivity.
    + destruct H as [_ H]. apply Hc in H. discriminate H.
Qed.

End Termination.

(** C2, where the method departs from it.  Asked about a state whose puck
    is past x = 0 after a hit, with no termination by the parent,
    [is_absorbing] answers false when the object's own [self._state] has
    the puck elsewhere: it takes the puck position from [self._state],
    not from its argument.  It answers true once the two states are the
    same. *)
Theorem is_absorbing_stale_state :
  (puck_xy (state_at (0.1, 0.2) (0, 0) (-0.5, 0))).1 > 0
  /\ Prepare.has_hit
       (task "side" true false quiet_client (state_at (-0.6, 0.3) (0, 0) (-0.6, 0.25)))
     = true
  /\ Prepare.is_absorbing (fun _ _ => false)
       (task "side" true false quiet_client (state_at (-0.6, 0.3) (0, 0) (-0.6, 0.25)))
       (state_at (0.1, 0.2) (0, 0) (-0.5, 0))
     = false
  /\ Prepare.is_absorbing (fun _ _ => false)
       (task "side" true false quiet_client (state_at (0.1, 0.2) (0, 0) (-0.5, 0)))
       (state_at (0.1, 0.2) (0, 0) (-0.5, 0))
     = true.
Proof.
  split; [unfold puck_xy; simpl; lra|]. split; [reflexivity|].
  unfold Prepare.is_absorbing. simpl.
  assert (H1 : Rgtb (-0.6) 0 = false) by (apply Rgtb_ngt; lra).
  assert (H2 : Rltb (Rabs 0.3) 0.01 = false)
    by (apply Rltb_nlt; rewrite Rabs_pos_eq; lra).
  assert (H3 : Rgtb 0.1 0 = true) by (apply Rgtb_gt; lra).
  rewrite H1, H2, H3. split; reflexivity.
Qed.

Lemma is_absorbing_cases_witness :
  Prepare.is_absorbing (fun _ _ => false)
    (task "side" true false quiet_client (state_at (0.1, 0.2) (0, 0) (-0.5, 0)))
    (state_at (0.1, 0.2) (0, 0) (-0.5, 0))
  = true
  /\ Prepare.is_absorbing (fun _ _ => false)
       (task "side" false false quiet_client (state_at (0.1, 0.2) (0, 0) (-0.5, 0)))
       (state_at (0.1, 0.2) (0, 0) (-0.5, 0))
     = false.
Proof.
  split.
  - destruct (is_absorbing_cases (fun _ _ => false)
                (task "side" true false quiet_client (state_at (0.1, 0.2) (0, 0) (-0.5, 0)))
                (state_at (0.1, 0.2) (0, 0) (-0.5, 0))) as [_ Hrest].
    destruct (Hrest eq_refl) as [Hside _].
    destruct (Hside eq_refl) as [Hyes _].
    apply Hyes. split; [reflexivity|]. left. unfold puck_xy; simpl. lra.
  - destruct (is_absorbing_cases (fun _ _ => false)
                (task "side" false false quiet_client (state_at (0.1, 0.2) (0, 0) (-0.5, 0)))
                (state_at (0.1, 0.2) (0, 0) (-0.5, 0))) as [_ Hrest].
    destruct (Hrest eq_refl) as [Hside _].
    destruct (Hside eq_refl) as [_ Hno].
    apply Hno. intros [H _]. discriminate H.
Defined.

(** ** Reset *)

Section Reset.

Import Prepare.

Lemma reset_joints_calls (data : list (Z * Z * Z)) :
  forall (c : pybullet.Client) (init : list R) (i : nat),
    (i + length data <= length init)%nat ->
    exists c' : pybullet.Client,
      reset_joints c data init i = Ok c'
      /\ pybullet.getContactPoints c' = pybullet.getContactPoints c
      /\ pybullet.calls c' = pybullet.calls c ++ joint_resets data (drop i init).
Proof.
  induction data as [|[[model_id joint_id] mode] data IH]; intros c init i Hlen.
  - exists c. simpl. unfold joint_resets. rewrite app_nil_r. auto.
  - simpl in Hlen. simpl.
    destruct (init !! i) as [q|] eqn:Hq.
    2:{ apply lookup_ge_None in Hq. lia. }
    unfold getindex. rewrite Hq. simpl.
    destruct (IH (pybullet.resetJointState c model_id joint_id q) init (S i))
      as (c' & Hrun & Hcontacts & Hcalls); [lia|].
    exists c'. split; [exact Hrun|]. split; [exact Hcontacts|].
    rewrite Hcalls. simpl. rewrite <- app_assoc. f_equal.
    rewrite (drop_S init q i Hq). reflexivity.
Qed.

Lemma joint_resets_lookup (data : list (Z * Z * Z)) (init : list R) :
  (length data <= length init)%nat ->
  length (joint_resets data init) = length data
  /\ forall (i : nat) (model_id joint_id mode : Z),
       data !! i = Some (model_id, joint_id, mode) ->
       exists q : R,
         init !! i = Some q
         /\ joint_resets data init !! i = Some (pybullet.ResetJointState model_id joint_id q).
Proof.
  intros Hlen. unfold joint_resets. split.
  - rewrite length_zip_with. lia.
  - intros i model_id joint_id mode Hi.
    assert (Hlt : (i < length init)%nat).
    { apply lookup_lt_Some in Hi. lia. }
    destruct (lookup_lt_is_Some_2 init i Hlt) as [q Hq].
    exists q. split; [exact Hq|].
    rewrite lookup_zip_with, Hi. simpl. rewrite Hq. reflexivity.
Qed.

(** What a successful [setup] leaves behind, whichever way the start was
    chosen. *)
Lemma setup_from_start (self : AirHockeyPrepare) (random : Random) (state : State)
    (start : R * R) (logged : option (R * R)) (puck : Z) :
  setup_puck_pos self random = Ok (start, logged) ->
  _model_map (super self) !! "puck" = Some puck ->
  (length (action_data (_indexer (super self))) <= length (init_state (super self)))%nat ->
  exists self' : AirHockeyPrepare,
    setup self random state = Ok self'
    /\ has_hit self' = false
    /\ has_bounce self' = false
    /\ desired_point self' = (start.1, 0)
    /\ pybullet.calls (client (super self'))
       = pybullet.calls (client (super self))
         ++ pybullet.ResetBasePositionAndOrientation puck (start.1, start.2, -0.189)
              (0, 0, 0, 1.0)
            :: joint_resets (action_data (_indexer (super self))) (init_state (super self)).
Proof.
  intros Hstart Hpuck Hlen. unfold setup. rewrite Hstart. simpl.
  unfold getitem. rewrite Hpuck. simpl.
  destruct (reset_joints_calls (action_data (_indexer (super self)))
              (pybullet.resetBasePositionAndOrientation (client (super self)) puck
                 (start.1, start.2, -0.189) (0, 0, 0, 1.0))
              (init_state (super self)) 0 ltac:(simpl; lia))
    as (c' & Hrun & _ & Hcalls).
  rewrite Hrun. simpl. eexists. split; [reflexivity|]. simpl.
  repeat split. rewrite Hcalls. simpl. rewrite <- app_assoc. reflexivity.
Qed.

(** The constructor configures a start range for the two documented
    sub-problems, and without one [setup] raises. *)
Lemma init_start_range (parent : AirHockeySingle) (random_init : bool) (action_penalty : R)
    (sub : string) (self : AirHockeyPrepare) :
  __init__ (Ok parent) random_init action_penalty sub = Ok self ->
  (sub = "side" -> start_range self = Some ((-0.8, -0.4), (0.25, 0.46)))
  /\ (sub = "bottom" -> start_range self = Some ((-0.9, -0.8), (0.125, 0.46))).
Proof.
  intros [= <-]. simpl. split; intros ->; reflexivity.
Qed.

Lemma setup_unconfigured (self : AirHockeyPrepare) (random : Random) (state : State) :
  start_range self = None ->
  setup self random state = Raise (if random_init self then TypeError else AxisError).
Proof.
  intros Hnone. unfold setup, setup_puck_pos. rewrite Hnone.
  destruct (random_init self); reflexivity.
Qed.

(** C7.  Without random initialisation, and whatever the generator would
    draw, [setup] starts the puck at the midpoint of the configured range:
    [desired_point] becomes (puck_x, 0), the puck body is placed at
    (puck_x, puck_y, -0.189) with the identity orientation, and then every
    actuated joint is reset to the entry of [init_state] at its index. *)
Theorem setup_fixed_start (self : AirHockeyPrepare) (random : Random) (state : State)
    (x0 x1 y0 y1 : R) (puck : Z) :
  random_init self = false ->
  start_range self = Some ((x0, x1), (y0, y1)) ->
  _model_map (super self) !! "puck" = Some puck ->
  (length (action_data (_indexer (super self))) <= length (init_state (super self)))%nat ->
  exists (self' : AirHockeyPrepare) (resets : list pybullet.Call),
    setup self random state = Ok self'
    /\ desired_point self' = ((x0 + x1) / 2, 0)
    /\ pybullet.calls (client (super self'))
       = pybullet.calls (client (super self))
         ++ pybullet.ResetBasePositionAndOrientation puck
              ((x0 + x1) / 2, (y0 + y1) / 2, -0.189) (0, 0, 0, 1)
            :: resets
    /\ length resets = length (action_data (_indexer (super self)))
    /\ forall (i : nat) (model_id joint_id mode : Z),
         action_data (_indexer (super self)) !! i = Some (model_id, joint_id, mode) ->
         exists q : R,
           init_state (super self) !! i = Some q
           /\ resets !! i = Some (pybullet.ResetJointState model_id joint_id q).
Proof.
  intros Hfixed Hrange Hpuck Hlen.
  destruct (setup_from_start self random state
              ((x0 + x1) / 2, (y0 + y1) / 2) (puck_pos self) puck)
    as (self' & Hrun & _ & _ & Hdesired & Hcalls); try assumption.
  { unfold setup_puck_pos. rewrite Hfixed, Hrange. reflexivity. }
  destruct (joint_resets_lookup _ _ Hlen) as [Hcount Hlookup].
  exists self', (joint_resets (action_data (_indexer (super self))) (init_state (super self))).
  split; [exact Hrun|]. split; [exact Hdesired|]. split; [|split; assumption].
  rewrite Hcalls. simpl. do 4 f_equal. lra.
Qed.

End Reset.

Lemma setup_fixed_start_witness :
  exists (self' : Prepare.AirHockeyPrepare) (resets : list pybullet.Call),
    Prepare.setup (task "side" true true quiet_client (state_at (0.1, 0.2) (0, 0) (-0.5, 0)))
      {| rand := (0.3, 0.9); randint := true |} (state_at (0.1, 0.2) (0, 0) (-0.5, 0))
    = Ok self'
    /\ Prepare.desired_point self' = ((-0.8 + -0.4) / 2, 0)
    /\ pybullet.calls (client (Prepare.super self'))
       = [] ++ pybullet.ResetBasePositionAndOrientation 2
                 ((-0.8 + -0.4) / 2, (0.25 + 0.46) / 2, -0.189) (0, 0, 0, 1)
               :: resets
    /\ length resets = 3%nat
    /\ forall (i : nat) (model_id joint_id mode : Z),
         [(1, 1, 0)%Z; (1, 2, 0)%Z; (1, 3, 0)%Z] !! i = Some (model_id, joint_id, mode) ->
         exists q : R,
           [-0.9273; 0.9273; PI / 2] !! i = Some q
           /\ resets !! i = Some (pybullet.ResetJointState model_id joint_id q).
Proof.
  apply (setup_fixed_start
           (task "side" true true quiet_client (state_at (0.1, 0.2) (0, 0) (-0.5, 0)))
           {| rand := (0.3, 0.9); randint := true |} (state_at (0.1, 0.2) (0, 0) (-0.5, 0))
           (-0.8) (-0.4) 0.25 0.46 2%Z).
  - reflexivity.
  - reflexivity.
  - reflexivity.
  - simpl. lia.
Defined.

(** ** The contact flags *)

Section ContactFlags.

Import Prepare.

Lemma contact_count_quiet (parent : AirHockeySingle) (link : string) (c2 : pybullet.Client) :
  contact_count parent link = Ok 0%nat ->
  no_new_contacts (client parent) c2 ->
  contact_count (set_client parent c2) link = Ok 0%nat.
Proof.
  unfold contact_count, getitem. simpl.
  destruct (_model_map parent !! "puck") as [puck|]; simpl; [|discriminate].
  destruct (link_map (_indexer parent) !! link) as [ids|]; simpl; [|discriminate].
  intros [= Hlen] Hnew. f_equal.
  destruct (pybullet.getContactPoints c2 puck ids.1 (-1)%Z ids.2) as [|p l] eqn:Hc2;
    [reflexivity|].
  exfalso. apply (Hnew puck ids.1 (-1)%Z ids.2); [rewrite Hc2; discriminate|].
  apply nil_length_inv. exact Hlen.
Qed.

Lemma contact_count_total (parent : AirHockeySingle) (link : string) :
  is_Some (_model_map parent !! "puck") ->
  is_Some (link_map (_indexer parent) !! link) ->
  exists n : nat, contact_count parent link = Ok n.
Proof.
  intros [puck Hpuck] [ids Hids]. unfold contact_count, getitem.
  rewrite Hpuck, Hids. simpl. eauto.
Qed.

(** What a successful [_simulation_post_step] has done. *)
Lemma post_step_inv (self self' : AirHockeyPrepare) :
  _simulation_post_step self = Ok self' ->
  self' = with_flags self (has_hit self') (has_bounce self')
  /\ (if has_hit self then has_hit self' = true
      else exists n : nat,
             contact_count (super self) striker_link = Ok n
             /\ has_hit self' = (0 <? n)%nat)
  /\ (if has_bounce self then has_bounce self' = true
      else exists n1 n2 n3 n4 : nat,
             contact_count (super self) "t_up_rim_l" = Ok n1
             /\ contact_count (super self) "t_up_rim_r" = Ok n2
             /\ contact_count (super self) "t_down_rim_l" = Ok n3
             /\ contact_count (super self) "t_down_rim_r" = Ok n4
             /\ has_bounce self' = (0 <? n1 + n2 + n3 + n4)%nat).
Proof.
  unfold _simulation_post_step, striker_link.
  destruct (has_hit self) eqn:Hhit, (has_bounce self) eqn:Hbounce; simpl.
  - intros [= <-]. simpl. auto.
  - destruct (contact_count (super self) "t_up_rim_l") as [n1|]; simpl; [|discriminate].
    destruct (contact_count (super self) "t_up_rim_r") as [n2|]; simpl; [|discriminate].
    destruct (contact_count (super self) "t_down_rim_l") as [n3|]; simpl; [|discriminate].
    destruct (contact_count (super self) "t_down_rim_r") as [n4|]; simpl; [|discriminate].
    intros [= <-]. simpl. repeat split.
    exists n1, n2, n3, n4. repeat split.
    destruct (0 <? n1 + n2 + n3 + n4)%nat; reflexivity.
  - destruct (contact_count (super self) "planar_robot_1/link_striker_ee") as [n|];
      simpl; [|discriminate].
    intros [= <-]. simpl. repeat split.
    exists n. split; [reflexivity|]. destruct (0 <? n)%nat; reflexivity.
  - destruct (contact_count (super self) "planar_robot_1/link_striker_ee") as [n|];
      simpl; [|discriminate].
    destruct (contact_count (super self) "t_up_rim_l") as [n1|]; simpl; [|discriminate].
    destruct (contact_count (super self) "t_up_rim_r") as [n2|]; simpl; [|discriminate].
    destruct (contact_count (super self) "t_down_rim_l") as [n3|]; simpl; [|discriminate].
    destruct (contact_count (super self) "t_down_rim_r") as [n4|]; simpl; [|discriminate].
    intros [= <-]. simpl. repeat split.
    + exists n. split; [reflexivity|]. destruct (0 <? n)%nat; reflexivity.
    + exists n1, n2, n3, n4. repeat split.
      destruct (0 <? n1 + n2 + n3 + n4)%nat; reflexivity.
Qed.

Lemma setup_clears_flags (self self' : AirHockeyPrepare) (random : Random) (state : State) :
  setup self random state = Ok self' ->
  has_hit self' = false /\ has_bounce self' = false.
Proof.
  unfold setup.
  destruct (setup_puck_pos self random) as [drawn|]; simpl; [|discriminate].
  destruct (getitem (_model_map (super self)) "puck") as [puck|]; simpl; [|discriminate].
  match goal with
  | |- context [reset_joints ?c ?d ?i ?k] => destruct (reset_joints c d i k) as [c'|]
  end; simpl; [|discriminate].
  intros [= <-]. simpl. auto.
Qed.

Lemma setup_total (self : AirHockeyPrepare) (random : Random) (state : State) :
  well_formed (super self) ->
  start_range self <> None ->
  exists self' : AirHockeyPrepare, setup self random state = Ok self'.
Proof.
  intros ([puck Hpuck] & _ & Hlen) Hrange.
  assert (Hstart : exists start logged, setup_puck_pos self random = Ok (start, logged)).
  { unfold setup_puck_pos.
    destruct (start_range self) as [[xs ys]|]; [|contradiction].
    destruct (random_init self); simpl; eauto. }
  destruct Hstart as (start & logged & Hstart).
  destruct (setup_from_start self random state start logged puck Hstart Hpuck Hlen)
    as (self' & Hrun & _).
  eauto.
Qed.

Lemma post_step_total (self : AirHockeyPrepare) :
  well_formed (super self) ->
  exists self' : AirHockeyPrepare, _simulation_post_step self = Ok self'.
Proof.
  intros (Hpuck & Hlinks & _). unfold striker_link, rim_links in Hlinks.
  repeat match goal with
         | H : Forall _ (_ :: _) |- _ => apply Forall_cons in H; destruct H
         end.
  destruct (contact_count_total (super self) "planar_robot_1/link_striker_ee")
    as [n Hn]; [assumption..|].
  destruct (contact_count_total (super self) "t_up_rim_l") as [n1 Hc1]; [assumption..|].
  destruct (contact_count_total (super self) "t_up_rim_r") as [n2 Hc2]; [assumption..|].
  destruct (contact_count_total (super self) "t_down_rim_l") as [n3 Hc3]; [assumption..|].
  destruct (contact_count_total (super self) "t_down_rim_r") as [n4 Hc4]; [assumption..|].
  unfold _simulation_post_step. rewrite Hn, Hc1, Hc2, Hc3, Hc4.
  destruct (has_hit self), (has_bounce self); simpl; eauto.
Qed.

Lemma post_step_again (self self' : AirHockeyPrepare) (c2 : pybullet.Client) :
  _simulation_post_step self = Ok self' ->
  no_new_contacts (client (super self)) c2 ->
  _simulation_post_step (with_client self' c2) = Ok (with_client self' c2).
Proof.
  intros Hstep Hnew. destruct (post_step_inv self self' Hstep) as (Hself' & Hhit & Hbounce).
  assert (Hsuper : super self' = super self) by (rewrite Hself'; reflexivity).
  unfold _simulation_post_step. simpl. rewrite Hsuper.
  assert (H1 : (if negb (has_hit self')
                then let* collision_count :=
                       contact_count (set_client (super self) c2)
                         "planar_robot_1/link_striker_ee" in
                     Ok (if (0 <? collision_count)%nat then true else has_hit self')
                else Ok (has_hit self')) = Ok (has_hit self')).
  { destruct (has_hit self') eqn:Hh'; [reflexivity|]. simpl.
    destruct (has_hit self); [discriminate|].
    destruct Hhit as (n & Hn & Hz). unfold striker_link in Hn.
    symmetry in Hz. apply Nat.ltb_ge in Hz.
    assert (n = 0%nat) as -> by lia.
    rewrite (contact_count_quiet _ _ c2 Hn Hnew). reflexivity. }
  rewrite H1. simpl.
  assert (H2 : (if negb (has_bounce self')
                then
                  let* n := contact_count (set_client (super self) c2) "t_up_rim_l" in
                  let* n0 := contact_count (set_client (super self) c2) "t_up_rim_r" in
                  let* n1 := contact_count (set_client (super self) c2) "t_down_rim_l" in
                  let* n2 := contact_count (set_client (super self) c2) "t_down_rim_r" in
                  Ok (if (0 <? 0 + n + n0 + n1 + n2)%nat then true else has_bounce self')
                else Ok (has_bounce self')) = Ok (has_bounce self')).
  { destruct (has_bounce self') eqn:Hb'; [reflexivity|]. simpl.
    destruct (has_bounce self); [discriminate|].
    destruct Hbounce as (n1 & n2 & n3 & n4 & Hn1 & Hn2 & Hn3 & Hn4 & Hz).
    symmetry in Hz. apply Nat.ltb_ge in Hz.
    assert (n1 = 0%nat) as -> by lia. assert (n2 = 0%nat) as -> by lia.
    assert (n3 = 0%nat) as -> by lia. assert (n4 = 0%nat) as -> by lia.
    rewrite (contact_count_quiet _ _ c2 Hn1 Hnew), (contact_count_quiet _ _ c2 Hn2 Hnew),
      (contact_count_quiet _ _ c2 Hn3 Hnew), (contact_count_quiet _ _ c2 Hn4 Hnew).
    reflexivity. }
  simpl in H2. rewrite H2. reflexivity.
Qed.

Lemma rim_touching (parent : AirHockeySingle) (n1 n2 n3 n4 : nat) :
  contact_count parent "t_up_rim_l" = Ok n1 ->
  contact_count parent "t_up_rim_r" = Ok n2 ->
  contact_count parent "t_down_rim_l" = Ok n3 ->
  contact_count parent "t_down_rim_r" = Ok n4 ->
  (0 <? n1 + n2 + n3 + n4)%nat = true
  <-> exists rim : string, rim ∈ rim_links /\ touching parent rim.
Proof.
  intros H1 H2 H3 H4. rewrite Nat.ltb_lt. unfold rim_links, touching. split.
  - intros Hsum.
    destruct n1 as [|n1]; [|exists "t_up_rim_l"; split; [set_solver|eexists; split; [eassumption|lia]]].
    destruct n2 as [|n2]; [|exists "t_up_rim_r"; split; [set_solver|eexists; split; [eassumption|lia]]].
    destruct n3 as [|n3]; [|exists "t_down_rim_l"; split; [set_solver|eexists; split; [eassumption|lia]]].
    destruct n4 as [|n4]; [lia|].
    exists "t_down_rim_r"; split; [set_solver|eexists; split; [eassumption|lia]].
  - intros (rim & Hin & n & Hn & Hpos).
    repeat (apply elem_of_cons in Hin as [->|Hin]); [..|apply elem_of_nil in Hin; contradiction];
      rewrite Hn in *; simplify_eq; lia.
Qed.

(** C3.  After a [setup] that returns, [has_hit] and [has_bounce] are
    false.  A [_simulation_post_step] that returns keeps a flag that was
    true; [has_hit] is true afterwards exactly when it was true before or
    the puck is seen in contact with the striker's end-effector, and
    [has_bounce] exactly when it was true before or the puck is seen in
    contact with one of the four rim links; a second call, on a client
    that reports no new contact, returns the object unchanged, flags
    included.  On a well-formed parent object both methods do return
    ([setup] for a configured start range). *)
Theorem contact_flags_latch (self : AirHockeyPrepare) :
  (forall (random : Random) (state : State) (self' : AirHockeyPrepare),
     setup self random state = Ok self' ->
     has_hit self' = false /\ has_bounce self' = false)
  /\ (forall self' : AirHockeyPrepare,
        _simulation_post_step self = Ok self' ->
        (has_hit self = true -> has_hit self' = true)
        /\ (has_bounce self = true -> has_bounce self' = true)
        /\ (has_hit self' = true
            <-> has_hit self = true \/ touching (super self) striker_link)
        /\ (has_bounce self' = true
            <-> has_bounce self = true
                \/ exists rim : string, rim ∈ rim_links /\ touching (super self) rim)
        /\ (forall c2 : pybullet.Client,
              no_new_contacts (client (super self)) c2 ->
              _simulation_post_step (with_client self' c2) = Ok (with_client self' c2)))
  /\ (well_formed (super self) ->
      (start_range self <> None ->
       forall (random : Random) (state : State),
       exists self' : AirHockeyPrepare, setup self random state = Ok self')
      /\ exists self' : AirHockeyPrepare, _simulation_post_step self = Ok self').
Proof.
  split; [|split].
  - intros random state self'. apply setup_clears_flags.
  - intros self' Hstep.
    destruct (post_step_inv self self' Hstep) as (_ & Hhit & Hbounce).
    split; [|split; [|split; [|split]]].
    + intros Hwas. rewrite Hwas in Hhit. exact Hhit.
    + intros Hwas. rewrite Hwas in Hbounce. exact Hbounce.
    + destruct (has_hit self); [tauto|].
      destruct Hhit as (n & Hn & ->). rewrite Nat.ltb_lt. unfold touching. split.
      * intros Hpos. right. eauto.
      * intros [Hf|(m & Hm & Hpos)]; [discriminate|]. rewrite Hn in Hm. simplify_eq. exact Hpos.
    + destruct (has_bounce self); [tauto|].
      destruct Hbounce as (n1 & n2 & n3 & n4 & H1 & H2 & H3 & H4 & ->).
      rewrite (rim_touching _ _ _ _ _ H1 H2 H3 H4). split; [auto|].
      intros [Hf|Hrim]; [discriminate|exact Hrim].
    + intros c2. apply post_step_again. exact Hstep.
  - intros Hwf. split.
    + intros Hrange random state. apply setup_total; assumption.
    + apply post_step_total. exact Hwf.
Qed.

End ContactFlags.

Lemma table_parent_well_formed (c : pybullet.Client) (s : State) :
  well_formed (table_parent c s).
Proof.
  unfold well_formed, striker_link, rim_links. simpl. split; [|split].
  - eexists. reflexivity.
  - repeat constructor; eexists; reflexivity.
  - lia.
Qed.

Lemma contact_flags_latch_witness :
  exists self' : Prepare.AirHockeyPrepare,
    Prepare._simulation_post_step
      (task "side" false false striking_client (state_at (-0.6, 0.3) (0, 0) (-0.6, 0.25)))
    = Ok self'
    /\ Prepare.has_hit self' = true
    /\ Prepare._simulation_post_step (with_client self' quiet_client)
       = Ok (with_client self' quiet_client).
Proof.
  destruct (contact_flags_latch
              (task "side" false false striking_client (state_at (-0.6, 0.3) (0, 0) (-0.6, 0.25))))
    as (_ & Hstep & Htotal).
  destruct (Htotal (table_parent_well_formed _ _)) as [_ [self' Hrun]].
  destruct (Hstep self' Hrun) as (_ & _ & Hhit & _ & Hagain).
  exists self'. split; [exact Hrun|]. split.
  - apply Hhit. right. exists 1%nat. split; [reflexivity|lia].
  - apply Hagain. intros bodyA bodyB linkA linkB Hnew. exfalso. apply Hnew. reflexivity.
Defined.

(** ** More on the reset: the random start, errors, what stays *)

Section ResetMore.

Import Prepare.

Lemma reset_joints_short (data : list (Z * Z * Z)) :
  forall (c : pybullet.Client) (init : list R) (i : nat),
    (i <= length init)%nat ->
    (length init < i + length data)%nat ->
    reset_joints c data init i = Raise IndexError.
Proof.
  induction data as [|[[model_id joint_id] mode] data IH]; intros c init i Hi Hlen.
  - simpl in Hlen. lia.
  - simpl in Hlen. simpl. unfold getindex.
    destruct (init !! i) as [q|] eqn:Hq; simpl; [|reflexivity].
    apply lookup_lt_Some in Hq. apply IH; lia.
Qed.

Lemma setup_inv (self self' : AirHockeyPrepare) (random : Random) (state : State) :
  setup self random state = Ok self' ->
  exists (start : R * R) (logged : option (R * R)) (puck : Z),
    setup_puck_pos self random = Ok (start, logged)
    /\ _model_map (super self) !! "puck" = Some puck
    /\ (length (action_data (_indexer (super self)))
        <= length (init_state (super self)))%nat.
Proof.
  unfold setup, getitem.
  destruct (setup_puck_pos self random) as [[start logged]|]; simpl; [|discriminate].
  destruct (_model_map (super self) !! "puck") as [puck|]; simpl; [|discriminate].
  intros Hrun. exists start, logged, puck. split; [reflexivity|]. split; [reflexivity|].
  destruct (le_lt_dec (length (action_data (_indexer (super self))))
                      (length (init_state (super self)))) as [Hle|Hlt]; [exact Hle|].
  rewrite reset_joints_short in Hrun by (simpl; lia). discriminate Hrun.
Qed.

Lemma setup_puck_pos_range (self : AirHockeyPrepare) (random : Random) (x0 x1 y0 y1 : R) :
  start_range self = Some ((x0, x1), (y0, y1)) ->
  exists (start : R * R) (logged : option (R * R)),
    setup_puck_pos self random = Ok (start, logged)
    /\ (unit_draw random -> x0 <= x1 -> 0 <= y0 <= y1 ->
        x0 <= start.1 <= x1 /\ y0 <= Rabs start.2 <= y1).
Proof.
  intros Hrange. unfold setup_puck_pos. rewrite Hrange.
  destruct (random_init self); simpl.
  - eexists _, _. split; [reflexivity|]. simpl.
    intros [[Hu0 Hu1] [Hv0 Hv1]] Hx Hy. split; [nra|].
    assert (Hin : y0 <= (rand random).2 * (y1 - y0) + y0 <= y1) by nra.
    destruct (randint random).
    + replace (((rand random).2 * (y1 - y0) + y0) * -1)
        with (- ((rand random).2 * (y1 - y0) + y0)) by lra.
      rewrite Rabs_Ropp, Rabs_pos_eq by lra. exact Hin.
    + rewrite Rmult_1_r, Rabs_pos_eq by lra. exact Hin.
  - eexists _, _. split; [reflexivity|]. simpl.
    intros _ Hx Hy. split; [lra|]. rewrite Rabs_pos_eq by lra. lra.
Qed.

(** X1.  With random initialisation [setup] places the puck at
    x = u0 * (x1 - x0) + x0 and y = +-(u1 * (y1 - y0) + y0), the sign being
    minus when [randint] draws 1; it records that position in
    [self.puck_pos], sets [desired_point] to (x, 0), and issues the
    placement of the puck followed by the joint resets. *)
Theorem setup_random_start (self : AirHockeyPrepare) (random : Random) (state : State)
    (x0 x1 y0 y1 : R) (puck : Z) :
  random_init self = true ->
  start_range self = Some ((x0, x1), (y0, y1)) ->
  _model_map (super self) !! "puck" = Some puck ->
  (length (action_data (_indexer (super self))) <= length (init_state (super self)))%nat ->
  exists (self' : AirHockeyPrepare) (px py : R),
    px = (rand random).1 * (x1 - x0) + x0
    /\ py = (if randint random then -1 else 1) * ((rand random).2 * (y1 - y0) + y0)
    /\ setup self random state = Ok self'
    /\ puck_pos self' = Some (px, py)
    /\ desired_point self' = (px, 0)
    /\ pybullet.calls (client (super self'))
       = pybullet.calls (client (super self))
         ++ pybullet.ResetBasePositionAndOrientation puck (px, py, -0.189) (0, 0, 0, 1)
            :: joint_resets (action_data (_indexer (super self))) (init_state (super self)).
Proof.
  intros Hrandom Hrange Hpuck Hlen.
  set (px := (rand random).1 * (x1 - x0) + x0).
  set (py := (if randint random then -1 else 1) * ((rand random).2 * (y1 - y0) + y0)).
  assert (Hstart : setup_puck_pos self random = Ok ((px, py), Some (px, py))).
  { unfold setup_puck_pos. rewrite Hrandom, Hrange. simpl.
    assert (Hx : ((rand random).1 * (x1 - x0) + x0) * 1 = px) by (unfold px; lra).
    assert (Hy : ((rand random).2 * (y1 - y0) + y0) * (if randint random then -1 else 1)
                 = py) by (unfold py; lra).
    rewrite Hx, Hy. reflexivity. }
  unfold setup. rewrite Hstart. simpl. unfold getitem. rewrite Hpuck. simpl.
  destruct (reset_joints_calls (action_data (_indexer (super self)))
              (pybullet.resetBasePositionAndOrientation (client (super self)) puck
                 (px, py, -0.189) (0, 0, 0, 1.0))
              (init_state (super self)) 0 ltac:(simpl; lia))
    as (c' & Hrun & _ & Hcalls).
  rewrite Hrun. simpl. eexists _, px, py.
  split; [reflexivity|]. split; [reflexivity|]. split; [reflexivity|]. simpl.
  split; [reflexivity|]. split; [reflexivity|].
  rewrite Hcalls. simpl. rewrite <- app_assoc. simpl. do 4 f_equal. lra.
Qed.

(** The object a successful [setup] returns. *)
Lemma setup_outcome (self : AirHockeyPrepare) (random : Random) (state : State)
    (start : R * R) (logged : option (R * R)) (puck : Z) :
  setup_puck_pos self random = Ok (start, logged) ->
  _model_map (super self) !! "puck" = Some puck ->
  (length (action_data (_indexer (super self))) <= length (init_state (super self)))%nat ->
  exists c' : pybullet.Client,
    pybullet.getContactPoints c' = pybullet.getContactPoints (client (super self))
    /\ pybullet.calls c'
       = pybullet.calls (client (super self))
         ++ pybullet.ResetBasePositionAndOrientation puck (start.1, start.2, -0.189)
              (0, 0, 0, 1)
            :: joint_resets (action_data (_indexer (super self))) (init_state (super self))
    /\ setup self random state
       = Ok {| random_init := random_init self;
               action_penalty := action_penalty self;
               sub_problem := sub_problem self;
               start_range := start_range self;
               desired_point := (start.1, 0);
               ee_end_pos := ee_end_pos self;
               has_hit := false;
               has_bounce := false;
               puck_pos := logged;
               super := set_client (super self) c' |}.
Proof.
  intros Hstart Hpuck Hlen. unfold setup. rewrite Hstart. simpl.
  unfold getitem. rewrite Hpuck. simpl.
  destruct (reset_joints_calls (action_data (_indexer (super self)))
              (pybullet.resetBasePositionAndOrientation (client (super self)) puck
                 (start.1, start.2, -0.189) (0, 0, 0, 1.0))
              (init_state (super self)) 0 ltac:(simpl; lia))
    as (c' & Hrun & Hcontacts & Hcalls).
  rewrite Hrun. simpl. exists c'. split; [exact Hcontacts|]. split; [|reflexivity].
  rewrite Hcalls. simpl. rewrite <- app_assoc. simpl. do 4 f_equal. lra.
Qed.

(** X2.  Whichever way the start is chosen, for a range with x0 <= x1 and
    0 <= y0 <= y1 and draws in [0, 1) the puck is placed at a point with
    x0 <= x <= x1 and y0 <= |y| <= y1, and [desired_point] is (x, 0). *)
Theorem setup_start_in_range (self : AirHockeyPrepare) (random : Random) (state : State)
    (x0 x1 y0 y1 : R) (puck : Z) :
  start_range self = Some ((x0, x1), (y0, y1)) ->
  x0 <= x1 ->
  0 <= y0 <= y1 ->
  unit_draw random ->
  _model_map (super self) !! "puck" = Some puck ->
  (length (action_data (_indexer (super self))) <= length (init_state (super self)))%nat ->
  exists (self' : AirHockeyPrepare) (px py : R),
    setup self random state = Ok self'
    /\ desired_point self' = (px, 0)
    /\ pybullet.calls (client (super self'))
       = pybullet.calls (client (super self))
         ++ pybullet.ResetBasePositionAndOrientation puck (px, py, -0.189) (0, 0, 0, 1)
            :: joint_resets (action_data (_indexer (super self))) (init_state (super self))
    /\ x0 <= px <= x1
    /\ y0 <= Rabs py <= y1.
Proof.
  intros Hrange Hx Hy Hdraw Hpuck Hlen.
  destruct (setup_puck_pos_range self random x0 x1 y0 y1 Hrange)
    as (start & logged & Hstart & Hin).
  destruct (Hin Hdraw Hx Hy) as [Hpx Hpy].
  destruct (setup_outcome self random state start logged puck Hstart Hpuck Hlen)
    as (c' & _ & Hcalls & Hrun).
  eexists _, start.1, start.2. split; [exact Hrun|]. simpl.
  split; [reflexivity|]. split; [exact Hcalls|]. split; assumption.
Qed.

(** X3.  [setup] returns exactly when a start range is configured, the
    model map names the puck and [init_state] has an entry for every
    actuated joint. *)
Theorem setup_ok_iff (self : AirHockeyPrepare) (random : Random) (state : State) :
  (exists self' : AirHockeyPrepare, setup self random state = Ok self')
  <-> start_range self <> None
      /\ is_Some (_model_map (super self) !! "puck")
      /\ (length (action_data (_indexer (super self)))
          <= length (init_state (super self)))%nat.
Proof.
  split.
  - intros [self' Hrun].
    destruct (setup_inv self self' random state Hrun)
      as (start & logged & puck & Hstart & Hpuck & Hlen).
    split; [|split; [eauto|exact Hlen]].
    intros Hnone. rewrite setup_unconfigured in Hrun by exact Hnone. discriminate Hrun.
  - intros (Hrange & [puck Hpuck] & Hlen).
    destruct (start_range self) as [[[x0 x1] [y0 y1]]|] eqn:Hsome; [|contradiction].
    destruct (setup_puck_pos_range self random x0 x1 y0 y1 Hsome)
      as (start & logged & Hstart & _).
    destruct (setup_outcome self random state start logged puck Hstart Hpuck Hlen)
      as (c' & _ & _ & Hrun).
    eauto.
Qed.

(** X4.  The exception of a failing [setup]: without a start range it is
    the [TypeError] of subscripting [None] (random start) or the
    [AxisError] of [np.mean] (fixed start), whatever else is missing;
    with a range but no "puck" in the model map, [KeyError]; with both
    but fewer initial joint values than actuated joints, [IndexError]. *)
Theorem setup_exception (self : AirHockeyPrepare) (random : Random) (state : State) :
  (start_range self = None ->
   setup self random state = Raise (if random_init self then TypeError else AxisError))
  /\ (start_range self <> None ->
      _model_map (super self) !! "puck" = None ->
      setup self random state = Raise KeyError)
  /\ (start_range self <> None ->
      is_Some (_model_map (super self) !! "puck") ->
      (length (init_state (super self))
       < length (action_data (_indexer (super self))))%nat ->
      setup self random state = Raise IndexError).
Proof.
  split; [|split].
  - apply setup_unconfigured.
  - intros Hrange Hpuck.
    destruct (start_range self) as [[[x0 x1] [y0 y1]]|] eqn:Hsome; [|contradiction].
    destruct (setup_puck_pos_range self random x0 x1 y0 y1 Hsome)
      as (start & logged & Hstart & _).
    unfold setup, getitem. rewrite Hstart. simpl. rewrite Hpuck. reflexivity.
  - intros Hrange [puck Hpuck] Hshort.
    destruct (start_range self) as [[[x0 x1] [y0 y1]]|] eqn:Hsome; [|contradiction].
    destruct (setup_puck_pos_range self random x0 x1 y0 y1 Hsome)
      as (start & logged & Hstart & _).
    unfold setup, getitem. rewrite Hstart. simpl. rewrite Hpuck. simpl.
    rewrite reset_joints_short by (simpl; lia). reflexivity.
Qed.

(** X5.  A [setup] that returns has changed [desired_point],
    [self.puck_pos], the two flags and the commands sent to the client,
    and nothing else: the configuration, the parent's maps, initial joint
    values and state, and what the client reports about contacts are as
    before. *)
Theorem setup_keeps_configuration (self self' : AirHockeyPrepare) (random : Random)
    (state : State) :
  setup self random state = Ok self' ->
  random_init self' = random_init self
  /\ action_penalty self' = action_penalty self
  /\ sub_problem self' = sub_problem self
  /\ start_range self' = start_range self
  /\ ee_end_pos self' = ee_end_pos self
  /\ same_but_client (super self') (super self)
  /\ pybullet.getContactPoints (client (super self'))
     = pybullet.getContactPoints (client (super self)).
Proof.
  intros Hrun.
  destruct (setup_inv self self' random state Hrun)
    as (start & logged & puck & Hstart & Hpuck & Hlen).
  destruct (setup_outcome self random state start logged puck Hstart Hpuck Hlen)
    as (c' & Hcontacts & _ & Hrun').
  rewrite Hrun in Hrun'. injection Hrun' as ->. simpl.
  unfold same_but_client. simpl. repeat split. exact Hcontacts.
Qed.

End ResetMore.

Lemma setup_random_start_witness :
  exists (self' : Prepare.AirHockeyPrepare) (px py : R),
    px = 0.5 * (-0.4 - -0.8) + -0.8
    /\ py = -1 * (0.5 * (0.46 - 0.25) + 0.25)
    /\ Prepare.setup (random_side_task quiet_client (state_at (0.1, 0.2) (0, 0) (-0.5, 0)))
         {| rand := (0.5, 0.5); randint := true |} (state_at (0.1, 0.2) (0, 0) (-0.5, 0))
       = Ok self'
    /\ Prepare.puck_pos self' = Some (px, py)
    /\ Prepare.desired_point self' = (px, 0)
    /\ pybullet.calls (client (Prepare.super self'))
       = [] ++ pybullet.ResetBasePositionAndOrientation 2 (px, py, -0.189) (0, 0, 0, 1)
               :: joint_resets [(1, 1, 0)%Z; (1, 2, 0)%Z; (1, 3, 0)%Z]
                               [-0.9273; 0.9273; PI / 2].
Proof.
  apply (setup_random_start
           (random_side_task quiet_client (state_at (0.1, 0.2) (0, 0) (-0.5, 0)))
           {| rand := (0.5, 0.5); randint := true |}
           (state_at (0.1, 0.2) (0, 0) (-0.5, 0)) (-0.8) (-0.4) 0.25 0.46 2%Z).
  - reflexivity.
  - reflexivity.
  - reflexivity.
  - simpl. lia.
Defined.

Lemma setup_start_in_range_witness :
  exists (self' : Prepare.AirHockeyPrepare) (px py : R),
    Prepare.setup (task "bottom" true true quiet_client (state_at (0.1, 0.2) (0, 0) (-0.5, 0)))
      {| rand := (0.25, 0.75); randint := false |} (state_at (0.1, 0.2) (0, 0) (-0.5, 0))
    = Ok self'
    /\ Prepare.desired_point self' = (px, 0)
    /\ pybullet.calls (client (Prepare.super self'))
       = [] ++ pybullet.ResetBasePositionAndOrientation 2 (px, py, -0.189) (0, 0, 0, 1)
               :: joint_resets [(1, 1, 0)%Z; (1, 2, 0)%Z; (1, 3, 0)%Z]
                               [-0.9273; 0.9273; PI / 2]
    /\ -0.9 <= px <= -0.8
    /\ 0.125 <= Rabs py <= 0.46.
Proof.
  apply (setup_start_in_range
           (task "bottom" true true quiet_client (state_at (0.1, 0.2) (0, 0) (-0.5, 0)))
           {| rand := (0.25, 0.75); randint := false |}
           (state_at (0.1, 0.2) (0, 0) (-0.5, 0)) (-0.9) (-0.8) 0.125 0.46 2%Z).
  - reflexivity.
  - lra.
  - lra.
  - unfold unit_draw. simpl. lra.
  - reflexivity.
  - simpl. lia.
Defined.

Lemma setup_exception_witness :
  Prepare.setup (task "top" false false quiet_client (state_at (0.1, 0.2) (0, 0) (-0.5, 0)))
    {| rand := (0.25, 0.75); randint := false |} (state_at (0.1, 0.2) (0, 0) (-0.5, 0))
  = Raise AxisError.
Proof.
  destruct (setup_exception
              (task "top" false false quiet_client (state_at (0.1, 0.2) (0, 0) (-0.5, 0)))
              {| rand := (0.25, 0.75); randint := false |}
              (state_at (0.1, 0.2) (0, 0) (-0.5, 0))) as [Hnone _].
  apply Hnone. reflexivity.
Defined.

Lemma setup_keeps_configuration_witness :
  exists self' : Prepare.AirHockeyPrepare,
    Prepare.setup (task "side" true true quiet_client (state_at (0.1, 0.2) (0, 0) (-0.5, 0)))
      {| rand := (0.25, 0.75); randint := false |} (state_at (0.1, 0.2) (0, 0) (-0.5, 0))
    = Ok self'
    /\ Prepare.sub_problem self' = "side"
    /\ Prepare.start_range self' = Some ((-0.8, -0.4), (0.25, 0.46)).
Proof.
  destruct (setup_total
              (task "side" true true quiet_client (state_at (0.1, 0.2) (0, 0) (-0.5, 0)))
              {| rand := (0.25, 0.75); randint := false |}
              (state_at (0.1, 0.2) (0, 0) (-0.5, 0))
              (table_parent_well_formed _ _) ltac:(discriminate)) as [self' Hrun].
  exists self'. split; [exact Hrun|].
  destruct (setup_keeps_configuration _ _ _ _ Hrun) as (_ & _ & Hsub & Hrange & _).
  split; assumption.
Defined.

Section Constructed.

Import Prepare.

(** X6.  On an object built by the constructor over a well-formed parent,
    [setup] returns exactly when [sub_problem] is "side" or "bottom": with
    any other value every reset raises. *)
Theorem constructed_setup_iff (parent : AirHockeySingle) (random_init : bool)
    (action_penalty : R) (sub : string) (self : AirHockeyPrepare)
    (random : Random) (state : State) :
  __init__ (Ok parent) random_init action_penalty sub = Ok self ->
  well_formed parent ->
  (exists self' : AirHockeyPrepare, setup self random state = Ok self')
  <-> sub = "side" \/ sub = "bottom".
Proof.
  intros [= <-] Hwf. split.
  - intros [self' Hrun].
    destruct (String.eqb_spec sub "side") as [Hs|Hs]; [left; exact Hs|].
    destruct (String.eqb_spec sub "bottom") as [Hb|Hb]; [right; exact Hb|].
    rewrite setup_unconfigured in Hrun; [discriminate Hrun|].
    reflexivity.
  - intros Hsub. apply setup_total; [exact Hwf|].
    simpl. destruct Hsub as [-> | ->]; discriminate.
Qed.

(** X7.  On an object built by the constructor for "side" or "bottom",
    with draws in [0, 1), [setup] places the puck in the start area of the
    sub-problem: -0.8 <= x <= -0.4 and 0.25 <= |y| <= 0.46 for "side",
    -0.9 <= x <= -0.8 and 0.125 <= |y| <= 0.46 for "bottom".  There
    neither x > 0 nor |y| < 0.01 holds. *)
Theorem constructed_start_area (parent : AirHockeySingle) (random_init : bool)
    (action_penalty : R) (sub : string) (self : AirHockeyPrepare)
    (random : Random) (state : State) :
  __init__ (Ok parent) random_init action_penalty sub = Ok self ->
  well_formed parent ->
  unit_draw random ->
  sub = "side" \/ sub = "bottom" ->
  exists (self' : AirHockeyPrepare) (puck : Z) (px py : R),
    setup self random state = Ok self'
    /\ _model_map parent !! "puck" = Some puck
    /\ pybullet.calls (client (super self'))
       = pybullet.calls (client parent)
         ++ pybullet.ResetBasePositionAndOrientation puck (px, py, -0.189) (0, 0, 0, 1)
            :: joint_resets (action_data (_indexer parent)) (init_state parent)
    /\ (sub = "side" -> -0.8 <= px <= -0.4 /\ 0.25 <= Rabs py <= 0.46)
    /\ (sub = "bottom" -> -0.9 <= px <= -0.8 /\ 0.125 <= Rabs py <= 0.46)
    /\ ~ (px > 0 \/ Rabs py < 0.01).
Proof.
  intros [= <-] Hwf Hdraw Hsub.
  destruct Hwf as ([puck Hpuck] & _ & Hlen).
  destruct Hsub as [-> | ->].
  - match goal with
    | |- context [setup ?o _ _] =>
        destruct (setup_puck_pos_range o random (-0.8) (-0.4) 0.25 0.46 eq_refl)
          as (start & logged & Hstart & Hin);
        destruct (setup_outcome o random state start logged puck Hstart Hpuck Hlen)
          as (c' & _ & Hcalls & Hrun)
    end.
    destruct (Hin Hdraw ltac:(lra) ltac:(lra)) as [Hpx Hpy].
    eexists _, puck, start.1, start.2. split; [exact Hrun|]. split; [exact Hpuck|].
    split; [exact Hcalls|]. split; [intros _; split; assumption|].
    split; [discriminate|]. lra.
  - match goal with
    | |- context [setup ?o _ _] =>
        destruct (setup_puck_pos_range o random (-0.9) (-0.8) 0.125 0.46 eq_refl)
          as (start & logged & Hstart & Hin);
        destruct (setup_outcome o random state start logged puck Hstart Hpuck Hlen)
          as (c' & _ & Hcalls & Hrun)
    end.
    destruct (Hin Hdraw ltac:(lra) ltac:(lra)) as [Hpx Hpy].
    eexists _, puck, start.1, start.2. split; [exact Hrun|]. split; [exact Hpuck|].
    split; [exact Hcalls|]. split; [discriminate|].
    split; [intros _; split; assumption|]. lra.
Qed.

End Constructed.

Lemma constructed_setup_iff_witness :
  (exists self' : Prepare.AirHockeyPrepare,
     Prepare.setup (task "bottom" false false quiet_client (state_at (0.1, 0.2) (0, 0) (-0.5, 0)))
       {| rand := (0.25, 0.75); randint := false |} (state_at (0.1, 0.2) (0, 0) (-0.5, 0))
     = Ok self')
  <-> "bottom" = "side" \/ "bottom" = "bottom".
Proof.
  apply (constructed_setup_iff
           (table_parent quiet_client (state_at (0.1, 0.2) (0, 0) (-0.5, 0)))
           false 1e-3 "bottom").
  - reflexivity.
  - apply table_parent_well_formed.
Defined.

Lemma constructed_start_area_witness :
  exists (self' : Prepare.AirHockeyPrepare) (puck : Z) (px py : R),
    Prepare.setup (task "side" false false quiet_client (state_at (0.1, 0.2) (0, 0) (-0.5, 0)))
      {| rand := (0.25, 0.75); randint := true |} (state_at (0.1, 0.2) (0, 0) (-0.5, 0))
    = Ok self'
    /\ ({[ "puck" := 2%Z ]} : gmap string Z) !! "puck" = Some puck
    /\ pybullet.calls (client (Prepare.super self'))
       = [] ++ pybullet.ResetBasePositionAndOrientation puck (px, py, -0.189) (0, 0, 0, 1)
               :: joint_resets [(1, 1, 0)%Z; (1, 2, 0)%Z; (1, 3, 0)%Z]
                               [-0.9273; 0.9273; PI / 2]
    /\ ("side" = "side" -> -0.8 <= px <= -0.4 /\ 0.25 <= Rabs py <= 0.46)
    /\ ("side" = "bottom" -> -0.9 <= px <= -0.8 /\ 0.125 <= Rabs py <= 0.46)
    /\ ~ (px > 0 \/ Rabs py < 0.01).
Proof.
  apply (constructed_start_area
           (table_parent quiet_client (state_at (0.1, 0.2) (0, 0) (-0.5, 0)))
           false 1e-3 "side").
  - reflexivity.
  - apply table_parent_well_formed.
  - unfold unit_draw. simpl. lra.
  - left. reflexivity.
Defined.

(** ** More on the contact flags: errors, what stays, runs *)

Section ContactMore.

Import Prepare.

Lemma contact_count_ok (parent : AirHockeySingle) (link : string) (n : nat) :
  contact_count parent link = Ok n ->
  is_Some (_model_map parent !! "puck") /\ is_Some (link_map (_indexer parent) !! link).
Proof.
  unfold contact_count, getitem.
  destruct (_model_map parent !! "puck") as [puck|]; simpl; [|discriminate].
  destruct (link_map (_indexer parent) !! link) as [ids|]; simpl; [|discriminate].
  intros _. split; eauto.
Qed.

Lemma contact_count_raise (parent : AirHockeySingle) (link : string) (e : exn) :
  contact_count parent link = Raise e -> e = KeyError.
Proof.
  unfold contact_count, getitem.
  destruct (_model_map parent !! "puck") as [puck|]; simpl; [|congruence].
  destruct (link_map (_indexer parent) !! link) as [ids|]; simpl; congruence.
Qed.

Lemma post_step_raise (self : AirHockeyPrepare) (e : exn) :
  _simulation_post_step self = Raise e -> e = KeyError.
Proof.
  unfold _simulation_post_step.
  destruct (has_hit self), (has_bounce self); simpl;
    repeat match goal with
           | |- context [contact_count ?p ?l] =>
               let E := fresh "E" in
               destruct (contact_count p l) eqn:E; simpl
           end;
    intros H; try discriminate H; injection H as <-;
    eapply contact_count_raise; eassumption.
Qed.

(** X8.  [_simulation_post_step] looks a name up only while the flag it
    serves is false.  It returns exactly when, for [has_hit] still false,
    the puck and the striker's end-effector link are named and, for
    [has_bounce] still false, the puck and the four rim links are named;
    otherwise it raises [KeyError], and no other exception. *)
Theorem post_step_ok_iff (self : AirHockeyPrepare) :
  ((exists self' : AirHockeyPrepare, _simulation_post_step self = Ok self')
   <-> (has_hit self = true
        \/ (is_Some (_model_map (super self) !! "puck")
            /\ is_Some (link_map (_indexer (super self)) !! striker_link)))
       /\ (has_bounce self = true
           \/ (is_Some (_model_map (super self) !! "puck")
               /\ Forall (fun link => is_Some (link_map (_indexer (super self)) !! link))
                         rim_links)))
  /\ (forall e : exn, _simulation_post_step self = Raise e -> e = KeyError).
Proof.
  split; [|apply post_step_raise]. split.
  - intros [self' Hstep].
    destruct (post_step_inv self self' Hstep) as (_ & Hhit & Hbounce). split.
    + destruct (has_hit self); [left; reflexivity|right].
      destruct Hhit as (n & Hn & _). exact (contact_count_ok _ _ _ Hn).
    + destruct (has_bounce self); [left; reflexivity|right].
      destruct Hbounce as (n1 & n2 & n3 & n4 & H1 & H2 & H3 & H4 & _).
      apply contact_count_ok in H1, H2, H3, H4. split; [tauto|].
      unfold rim_links. repeat constructor; tauto.
  - intros [Hhit Hbounce]. unfold _simulation_post_step.
    assert (H1 : exists hit : bool,
               (if negb (has_hit self)
                then let* collision_count :=
                       contact_count (super self) "planar_robot_1/link_striker_ee" in
                     Ok (if (0 <? collision_count)%nat then true else has_hit self)
                else Ok (has_hit self)) = Ok hit).
    { destruct Hhit as [-> | [Hp Hl]]; [simpl; eauto|].
      destruct (contact_count_total _ _ Hp Hl) as [n Hn]. unfold striker_link in Hn.
      rewrite Hn. destruct (has_hit self); simpl; eauto. }
    destruct H1 as [hit H1]. rewrite H1. simpl.
    destruct Hbounce as [-> | [Hp Hl]]; [simpl; eauto|].
    unfold rim_links in Hl.
    repeat match goal with
           | H : Forall _ (_ :: _) |- _ => apply Forall_cons in H; destruct H
           end.
    destruct (contact_count_total (super self) "t_up_rim_l") as [n1 Hc1]; [assumption..|].
    destruct (contact_count_total (super self) "t_up_rim_r") as [n2 Hc2]; [assumption..|].
    destruct (contact_count_total (super self) "t_down_rim_l") as [n3 Hc3]; [assumption..|].
    destruct (contact_count_total (super self) "t_down_rim_r") as [n4 Hc4]; [assumption..|].
    rewrite Hc1, Hc2, Hc3, Hc4. destruct (has_bounce self); simpl; eauto.
Qed.

(** X9.  A [_simulation_post_step] that returns has changed nothing but
    the two flags: every other attribute is as before, the parent object
    with its client included, so no command was sent to the
    simulation. *)
Theorem post_step_only_flags (self self' : AirHockeyPrepare) :
  _simulation_post_step self = Ok self' ->
  random_init self' = random_init self
  /\ action_penalty self' = action_penalty self
  /\ sub_problem self' = sub_problem self
  /\ start_range self' = start_range self
  /\ desired_point self' = desired_point self
  /\ ee_end_pos self' = ee_end_pos self
  /\ puck_pos self' = puck_pos self
  /\ super self' = super self.
Proof.
  intros Hstep. destruct (post_step_inv self self' Hstep) as (-> & _ & _).
  simpl. repeat split.
Qed.

Lemma post_step_flags (self self' : AirHockeyPrepare) :
  _simulation_post_step self = Ok self' ->
  (has_hit self' = true
   <-> has_hit self = true \/ touching (super self) striker_link)
  /\ (has_bounce self' = true
      <-> has_bounce self = true
          \/ exists rim : string, rim ∈ rim_links /\ touching (super self) rim).
Proof.
  intros Hstep. destruct (post_step_inv self self' Hstep) as (_ & Hhit & Hbounce). split.
  - destruct (has_hit self); [tauto|].
    destruct Hhit as (n & Hn & ->). rewrite Nat.ltb_lt. unfold touching. split.
    + intros Hpos. right. eauto.
    + intros [Hf|(m & Hm & Hpos)]; [discriminate|].
      rewrite Hn in Hm. simplify_eq. exact Hpos.
  - destruct (has_bounce self); [tauto|].
    destruct Hbounce as (n1 & n2 & n3 & n4 & H1 & H2 & H3 & H4 & ->).
    rewrite (rim_touching _ _ _ _ _ H1 H2 H3 H4). split; [auto|].
    intros [Hf|Hrim]; [discriminate|exact Hrim].
Qed.

Lemma touching_set_client (p : AirHockeySingle) (c0 c : pybullet.Client) (link : string) :
  touching (set_client (set_client p c0) c) link <-> touching (set_client p c) link.
Proof. reflexivity. Qed.

(** X10.  Over a run of any length, in which the simulation moves on
    before every [_simulation_post_step]: a flag that is true stays true;
    at the end [has_hit] is true exactly when it was true at the start or
    one of the steps saw the puck touch the striker's end-effector, and
    [has_bounce] exactly when it was true at the start or one of the
    steps saw the puck touch a rim link; [sub_problem] is as at the
    start. *)
Theorem post_steps_latch (clients : list pybullet.Client) :
  forall self self' : AirHockeyPrepare,
    post_steps self clients = Ok self' ->
    (has_hit self = true -> has_hit self' = true)
    /\ (has_bounce self = true -> has_bounce self' = true)
    /\ (has_hit self' = true
        <-> has_hit self = true
            \/ exists c : pybullet.Client,
                 c ∈ clients /\ touching (set_client (super self) c) striker_link)
    /\ (has_bounce self' = true
        <-> has_bounce self = true
            \/ exists (c : pybullet.Client) (rim : string),
                 c ∈ clients /\ rim ∈ rim_links
                 /\ touching (set_client (super self) c) rim)
    /\ sub_problem self' = sub_problem self.
Proof.
  induction clients as [|c0 rest IH]; intros self self' Hrun.
  - injection Hrun as <-. repeat split; try tauto.
    + intros [H|(c & Hin & _)]; [exact H|]. apply elem_of_nil in Hin. contradiction.
    + intros [H|(c & rim & Hin & _)]; [exact H|]. apply elem_of_nil in Hin. contradiction.
  - simpl in Hrun.
    destruct (_simulation_post_step (with_client self c0)) as [s1|] eqn:Hstep;
      simpl in Hrun; [|discriminate].
    destruct (post_step_flags _ _ Hstep) as [Hhit1 Hbounce1].
    destruct (post_step_inv _ _ Hstep) as (Hs1 & _ & _).
    assert (Hsuper : super s1 = set_client (super self) c0) by (rewrite Hs1; reflexivity).
    assert (Hsub : sub_problem s1 = sub_problem self) by (rewrite Hs1; reflexivity).
    simpl in Hhit1, Hbounce1.
    destruct (IH s1 self' Hrun) as (Hmh & Hmb & Hhit & Hbounce & Hsub').
    rewrite Hsuper in Hhit, Hbounce.
    assert (Hh : has_hit self' = true
                 <-> has_hit self = true
                     \/ exists c : pybullet.Client,
                          c ∈ c0 :: rest
                          /\ touching (set_client (super self) c) striker_link).
    { rewrite Hhit, Hhit1. split.
      - intros [[H|H]|(c & Hin & Hc)].
        + left. exact H.
        + right. exists c0. split; [apply list_elem_of_here|exact H].
        + right. exists c. split; [apply list_elem_of_further; exact Hin|].
          apply touching_set_client in Hc. exact Hc.
      - intros [H|(c & Hin & Hc)]; [left; left; exact H|].
        apply elem_of_cons in Hin as [->|Hin]; [left; right; exact Hc|].
        right. exists c. split; [exact Hin|]. apply touching_set_client. exact Hc. }
    assert (Hb : has_bounce self' = true
                 <-> has_bounce self = true
                     \/ exists (c : pybullet.Client) (rim : string),
                          c ∈ c0 :: rest /\ rim ∈ rim_links
                          /\ touching (set_client (super self) c) rim).
    { rewrite Hbounce, Hbounce1. split.
      - intros [[H|(rim & Hrim & H)]|(c & rim & Hin & Hrim & Hc)].
        + left. exact H.
        + right. exists c0, rim. split; [apply list_elem_of_here|]. split; assumption.
        + right. exists c, rim. split; [apply list_elem_of_further; exact Hin|].
          split; [exact Hrim|]. apply touching_set_client in Hc. exact Hc.
      - intros [H|(c & rim & Hin & Hrim & Hc)]; [left; left; exact H|].
        apply elem_of_cons in Hin as [->|Hin]; [left; right; eauto|].
        right. exists c, rim. split; [exact Hin|]. split; [exact Hrim|].
        apply touching_set_client. exact Hc. }
    split; [tauto|]. split; [tauto|]. split; [exact Hh|]. split; [exact Hb|].
    congruence.
Qed.

End ContactMore.

Lemma post_step_ok_iff_witness :
  Prepare._simulation_post_step (nameless_task true false) = Raise KeyError
  /\ exists self' : Prepare.AirHockeyPrepare,
       Prepare._simulation_post_step (nameless_task true true) = Ok self'.
Proof.
  split.
  - destruct (post_step_ok_iff (nameless_task true false)) as [[Hok _] Hraise].
    destruct (Prepare._simulation_post_step (nameless_task true false)) as [self'|e] eqn:Hstep.
    + exfalso. destruct (Hok (ex_intro _ self' eq_refl)) as [_ [Hb|[[puck Hp] _]]].
      * discriminate Hb.
      * discriminate Hp.
    + f_equal. apply Hraise. reflexivity.
  - destruct (post_step_ok_iff (nameless_task true true)) as [[_ Hok] _].
    apply Hok. split; left; reflexivity.
Defined.

Lemma post_step_only_flags_witness :
  exists self' : Prepare.AirHockeyPrepare,
    Prepare._simulation_post_step
      (task "side" false false striking_client (state_at (-0.6, 0.3) (0, 0) (-0.6, 0.25)))
    = Ok self'
    /\ Prepare.desired_point self' = (-0.6, 0)
    /\ Prepare.super self'
       = table_parent striking_client (state_at (-0.6, 0.3) (0, 0) (-0.6, 0.25)).
Proof.
  destruct (post_step_total
              (task "side" false false striking_client (state_at (-0.6, 0.3) (0, 0) (-0.6, 0.25)))
              (table_parent_well_formed _ _)) as [self' Hstep].
  exists self'. split; [exact Hstep|].
  destruct (post_step_only_flags _ _ Hstep) as (_ & _ & _ & _ & Hd & _ & _ & Hs).
  split; assumption.
Defined.

Lemma post_steps_latch_witness :
  exists self' : Prepare.AirHockeyPrepare,
    post_steps (task "side" false false quiet_client (state_at (-0.6, 0.3) (0, 0) (-0.6, 0.25)))
      [striking_client; quiet_client]
    = Ok self'
    /\ Prepare.has_hit self' = true.
Proof.
  destruct (post_step_total
              (with_client
                 (task "side" false false quiet_client (state_at (-0.6, 0.3) (0, 0) (-0.6, 0.25)))
                 striking_client)
              (table_parent_well_formed _ _)) as [s1 Hs1].
  assert (Hsuper : Prepare.super s1
                   = table_parent striking_client (state_at (-0.6, 0.3) (0, 0) (-0.6, 0.25))).
  { destruct (post_step_inv _ _ Hs1) as (-> & _ & _). reflexivity. }
  destruct (post_step_total (with_client s1 quiet_client)) as [s2 Hs2].
  { simpl. rewrite Hsuper. apply (table_parent_well_formed quiet_client). }
  assert (Hrun : post_steps
                   (task "side" false false quiet_client (state_at (-0.6, 0.3) (0, 0) (-0.6, 0.25)))
                   [striking_client; quiet_client] = Ok s2).
  { simpl. rewrite Hs1. simpl. rewrite Hs2. reflexivity. }
  exists s2. split; [exact Hrun|].
  destruct (post_steps_latch _ _ _ Hrun) as (_ & _ & Hhit & _).
  apply Hhit. right. exists striking_client. split; [apply list_elem_of_here|].
  exists 1%nat. split; [reflexivity|lia].
Defined.

(** ** The observation and the termination test around a step *)

Section Around.

Import Prepare.

Variable super_is_absorbing : AirHockeySingle -> State -> bool.
Variable super_create_observation : AirHockeySingle -> State -> list R.

(** X11.  [_create_observation] returns the parent's observation with one
    more entry at the end, from which [has_hit] can be read back: it is 1
    when the flag is set and 0 when it is not.  [has_bounce] is not part
    of the observation. *)
Theorem create_observation_flag (self : AirHockeyPrepare) (state : State) :
  length (_create_observation super_create_observation self state)
  = S (length (super_create_observation (super self) state))
  /\ take (length (super_create_observation (super self) state))
          (_create_observation super_create_observation self state)
     = super_create_observation (super self) state
  /\ (last (_create_observation super_create_observation self state) = Some 1
      <-> has_hit self = true)
  /\ (last (_create_observation super_create_observation self state) = Some 0
      <-> has_hit self = false)
  /\ (forall bounce : bool,
        _create_observation super_create_observation
          (with_flags self (has_hit self) bounce) state
        = _create_observation super_create_observation self state).
Proof.
  unfold _create_observation. cbv zeta.
  split; [rewrite length_app; simpl; lia|].
  split; [apply take_app_length|].
  rewrite last_snoc.
  split; [|split; [|reflexivity]].
  - destruct (has_hit self); split; try reflexivity; try discriminate.
    intros [= H]. lra.
  - destruct (has_hit self); split; try reflexivity; try discriminate.
    intros [= H]. lra.
Qed.

(** X12.  Right after a [setup] that returns, the class adds nothing to
    the parent's termination test, in either sub-problem, and the flag
    entry of the observation is 0. *)
Theorem fresh_episode (self self' : AirHockeyPrepare) (random : Random)
    (state s : State) :
  setup self random state = Ok self' ->
  is_absorbing super_is_absorbing self' s = super_is_absorbing (super self') s
  /\ last (_create_observation super_create_observation self' s) = Some 0.
Proof.
  intros Hrun. destruct (setup_clears_flags _ _ _ _ Hrun) as [Hhit Hbounce].
  unfold is_absorbing, _create_observation. cbv zeta.
  rewrite Hhit, Hbounce, last_snoc.
  split; [|reflexivity].
  destruct (super_is_absorbing (super self') s), (sub_problem self' =? "side")%string;
    reflexivity.
Qed.

(** X13.  [is_absorbing] passes its argument to the parent's test and
    reads the puck position from the object's own current state: two
    arguments on which the parent's test agrees get the same answer. *)
Theorem is_absorbing_reads_own_state (self : AirHockeyPrepare) (s1 s2 : State) :
  super_is_absorbing (super self) s1 = super_is_absorbing (super self) s2 ->
  is_absorbing super_is_absorbing self s1 = is_absorbing super_is_absorbing self s2.
Proof.
  intros Hsame. unfold is_absorbing. rewrite Hsame. reflexivity.
Qed.

Lemma is_absorbing_monotone (self : AirHockeyPrepare) (s : State) (h b h' b' : bool) :
  (h = true -> h' = true) ->
  (b = true -> b' = true) ->
  is_absorbing super_is_absorbing (with_flags self h b) s = true ->
  is_absorbing super_is_absorbing (with_flags self h' b') s = true.
Proof.
  intros Hh Hb. unfold is_absorbing. simpl.
  destruct (super_is_absorbing (super self) s); [reflexivity|].
  destruct (sub_problem self =? "side")%string;
    destruct h; try (rewrite (Hh eq_refl));
    destruct b; try (rewrite (Hb eq_refl));
    repeat match goal with
           | |- context [if ?c then _ else _] => destruct c
           end; intros H; try reflexivity; try discriminate H.
Qed.

(** X14.  A [_simulation_post_step] that returns never takes an episode
    back from terminal: if [is_absorbing] held before it, it holds
    after. *)
Theorem post_step_keeps_absorbing (self self' : AirHockeyPrepare) (s : State) :
  _simulation_post_step self = Ok self' ->
  is_absorbing super_is_absorbing self s = true ->
  is_absorbing super_is_absorbing self' s = true.
Proof.
  intros Hstep. destruct (post_step_inv self self' Hstep) as (Hself' & Hhit & Hbounce).
  rewrite Hself'. intros Habs.
  apply (is_absorbing_monotone self s (has_hit self) (has_bounce self)).
  - intros Hwas. rewrite Hwas in Hhit. exact Hhit.
  - intros Hwas. rewrite Hwas in Hbounce. exact Hbounce.
  - destruct self. exact Habs.
Qed.

End Around.

Lemma fresh_episode_witness :
  exists self' : Prepare.AirHockeyPrepare,
    Prepare.setup (task "side" true true quiet_client (state_at (0.1, 0.2) (0, 0) (-0.5, 0)))
      {| rand := (0.25, 0.75); randint := false |} (state_at (0.1, 0.2) (0, 0) (-0.5, 0))
    = Ok self'
    /\ Prepare.is_absorbing (fun _ _ => false) self' (state_at (0.1, 0.2) (0, 0) (-0.5, 0))
       = false
    /\ last (Prepare._create_observation (fun _ _ => [0.5; 0.25]) self'
               (state_at (0.1, 0.2) (0, 0) (-0.5, 0)))
       = Some 0.
Proof.
  destruct (setup_total
              (task "side" true true quiet_client (state_at (0.1, 0.2) (0, 0) (-0.5, 0)))
              {| rand := (0.25, 0.75); randint := false |}
              (state_at (0.1, 0.2) (0, 0) (-0.5, 0))
              (table_parent_well_formed _ _) ltac:(discriminate)) as [self' Hrun].
  exists self'. split; [exact Hrun|].
  exact (fresh_episode (fun _ _ => false) (fun _ _ => [0.5; 0.25]) _ _ _ _
           (state_at (0.1, 0.2) (0, 0) (-0.5, 0)) Hrun).
Defined.

Lemma is_absorbing_reads_own_state_witness :
  Prepare.is_absorbing (fun _ _ => false)
    (task "side" true false quiet_client (state_at (0.1, 0.2) (0, 0) (-0.5, 0)))
    (state_at (-0.6, 0.3) (0, 0) (-0.5, 0))
  = Prepare.is_absorbing (fun _ _ => false)
      (task "side" true false quiet_client (state_at (0.1, 0.2) (0, 0) (-0.5, 0)))
      (state_at (0.1, 0.2) (0, 0) (-0.5, 0)).
Proof.
  apply is_absorbing_reads_own_state. reflexivity.
Defined.

Lemma post_step_keeps_absorbing_witness :
  exists self' : Prepare.AirHockeyPrepare,
    Prepare._simulation_post_step
      (task "side" false true striking_client (state_at (-0.6, 0.3) (0, 0) (-0.6, 0.25)))
    = Ok self'
    /\ Prepare.is_absorbing (fun _ _ => false) self' (state_at (-0.6, 0.3) (0, 0) (-0.6, 0.25))
       = true.
Proof.
  destruct (post_step_total
              (task "side" false true striking_client (state_at (-0.6, 0.3) (0, 0) (-0.6, 0.25)))
              (table_parent_well_formed _ _)) as [self' Hstep].
  exists self'. split; [exact Hstep|].
  apply (post_step_keeps_absorbing (fun _ _ => false) _ _ _ Hstep). reflexivity.
Defined.

(** ** More on the reward: bounds, symmetry, what it reads *)

Section RewardMore.

Import Prepare.

Lemma reward_bonus_value
    (self : AirHockeyPrepare) (state : State) (action : list R) (next_state : State)
    (absorbing : bool) :
  absorbing_bonus self next_state absorbing ->
  reward self state action next_state absorbing
  = np.fin (100 * exp (-2 * np.linalg_norm2 (puck_velocity next_state))).
Proof.
  intros Hbonus. apply bonus_test in Hbonus. unfold reward.
  fold (puck_xy next_state) (ee_xy next_state) (puck_velocity next_state).
  destruct (sub_problem self =? "side")%string; rewrite Hbonus; reflexivity.
Qed.

Lemma linalg_norm2_nonneg (v : R * R) : 0 <= np.linalg_norm2 v.
Proof. apply sqrt_pos. Qed.

Lemma penalty_nonneg (self : AirHockeyPrepare) (action : list R) :
  0 <= action_penalty self -> 0 <= penalty self action.
Proof.
  intros Hp. unfold penalty. apply Rmult_le_pos; [exact Hp|]. apply sqrt_pos.
Qed.

Lemma exp_le_1 (x : R) : x <= 0 -> exp x <= 1.
Proof.
  intros Hx. destruct (Req_dec_T x 0) as [->|Hne]; [rewrite exp_0; lra|].
  assert (Hlt : x < 0) by lra. apply exp_increasing in Hlt. rewrite exp_0 in Hlt. lra.
Qed.

(** X15.  The bonus of an absorbing step lies between 0 and 100, and it is
    100 when the puck is at rest. *)
Theorem bonus_bounds
    (self : AirHockeyPrepare) (state : State) (action : list R) (next_state : State)
    (absorbing : bool) :
  absorbing_bonus self next_state absorbing ->
  exists r : R,
    reward self state action next_state absorbing = np.fin r
    /\ 0 <= r <= 100
    /\ (puck_velocity next_state = (0, 0) -> r = 100).
Proof.
  intros Hbonus. eexists. split; [apply reward_bonus_value; exact Hbonus|].
  pose proof (linalg_norm2_nonneg (puck_velocity next_state)) as Hn.
  pose proof (exp_pos (-2 * np.linalg_norm2 (puck_velocity next_state))) as Hpos.
  pose proof (exp_le_1 (-2 * np.linalg_norm2 (puck_velocity next_state)) ltac:(lra)) as Hle.
  split; [lra|]. rewrite <- linalg_norm2_eq_0.
  intros ->. replace (-2 * 0) with 0 by lra. rewrite exp_0. lra.
Qed.

Lemma clip01_bounds (x : R) : 0 <= clip01 x <= 1.
Proof.
  unfold clip01. split.
  - apply Rmin_glb; [apply Rmax_r|lra].
  - apply Rmin_r.
Qed.

Lemma square_unit (c : R) : 0 <= c <= 1 -> 0 <= c ^ 2 <= 1.
Proof. intros Hc. simpl. nra. Qed.

Lemma distance_pos (p q : R * R) : p <> q -> 0 < distance p q.
Proof.
  intros Hne. pose proof (linalg_norm2_nonneg (np.sub2 p q)) as Hn.
  assert (distance p q <> 0) by (unfold distance; rewrite distance_eq_0; exact Hne).
  unfold distance in *. lra.
Qed.

(** The pre-hit branch, for either sub-problem: the proximity term times
    the square of an alignment between 0 and 1. *)
Lemma prehit_value
    (self : AirHockeyPrepare) (state : State) (action : list R) (next_state : State)
    (absorbing : bool) :
  ~ absorbing_bonus self next_state absorbing ->
  has_hit self = false ->
  puck_xy next_state <> ee_xy next_state ->
  exists c : R,
    0 <= c <= 1
    /\ reward self state action next_state absorbing
       = np.fin (exp (-8 * (distance (puck_xy next_state) (ee_xy next_state) - 0.08)) * c ^ 2
                 - penalty self action).
Proof.
  intros Hbonus Hhit Hapart. unfold absorbing_bonus in Hbonus.
  destruct (sub_problem self =? "side")%string eqn:Hsub.
  - apply String.eqb_eq in Hsub. eexists. split; [apply clip01_bounds|].
    apply side_shaping_value; assumption.
  - eexists. split; [|apply bottom_shaping_value; assumption].
    split.
    + eapply Rle_trans; [apply clip01_bounds|apply Rmax_l].
    + apply Rmax_lub; apply clip01_bounds.
Qed.

(** X16.  Before the hit, when the distance between puck and end-effector
    is not zero, the reward before the penalty lies between 0 and
    exp(0.64), both ends included: the proximity term is at most
    exp(0.64) and the squared alignment is between 0 and 1. *)
Theorem prehit_bounds
    (self : AirHockeyPrepare) (state : State) (action : list R) (next_state : State)
    (absorbing : bool) :
  ~ absorbing_bonus self next_state absorbing ->
  has_hit self = false ->
  distance (puck_xy next_state) (ee_xy next_state) <> 0 ->
  exists r0 : R,
    reward self state action next_state absorbing = np.fin (r0 - penalty self action)
    /\ 0 <= r0 <= exp 0.64.
Proof.
  intros Hbonus Hhit Hdist.
  assert (Hapart : puck_xy next_state <> ee_xy next_state).
  { intros Hsame. apply Hdist. unfold distance. rewrite distance_eq_0. exact Hsame. }
  destruct (prehit_value self state action next_state absorbing Hbonus Hhit Hapart)
    as (c & Hc & Hval).
  eexists. split; [exact Hval|].
  pose proof (distance_pos _ _ Hapart) as Hd.
  pose proof (square_unit c Hc) as Hsq.
  pose proof (exp_pos (-8 * (distance (puck_xy next_state) (ee_xy next_state) - 0.08)))
    as Hpos.
  assert (Hlt : exp (-8 * (distance (puck_xy next_state) (ee_xy next_state) - 0.08))
                < exp 0.64) by (apply exp_increasing; lra).
  split; nra.
Qed.

(** X17.  In the sub-problem "side", before the hit and at a distance that
    is not zero, the reward before the penalty is 0 whenever the
    end-effector is on the far side of the puck: at or above a puck with
    puck_y > 0, at or below a puck with puck_y < 0. *)
Theorem side_prehit_behind
    (self : AirHockeyPrepare) (state : State) (action : list R) (next_state : State)
    (absorbing : bool) :
  sub_problem self = "side" ->
  ~ (absorbing = true /\ Rabs (puck_xy next_state).2 < 0.47) ->
  has_hit self = false ->
  distance (puck_xy next_state) (ee_xy next_state) <> 0 ->
  (0 < (puck_xy next_state).2 <= (ee_xy next_state).2
   \/ (ee_xy next_state).2 <= (puck_xy next_state).2 < 0) ->
  reward self state action next_state absorbing = np.fin (0 - penalty self action).
Proof.
  intros Hside Hbonus Hhit Hdist Hbehind.
  assert (Hapart : puck_xy next_state <> ee_xy next_state).
  { intros Hsame. apply Hdist. unfold distance. rewrite distance_eq_0. exact Hsame. }
  clear Hdist.
  rewrite side_shaping_value by assumption.
  pose proof (distance_pos _ _ Hapart) as Hd.
  assert (Hcos : clip01 (dot (direction (puck_xy next_state) (ee_xy next_state))
                             (0, if Rlt_dec (puck_xy next_state).2 0 then -1 else 1)) = 0).
  { assert (Hinv : 0 < / distance (puck_xy next_state) (ee_xy next_state))
      by (apply Rinv_0_lt_compat; exact Hd).
    unfold clip01, dot, direction, Rdiv.
    generalize dependent (distance (puck_xy next_state) (ee_xy next_state)).
    destruct (puck_xy next_state) as [px py], (ee_xy next_state) as [ex ey].
    simpl in *. intros d _ Hinv.
    rewrite Rmax_right; [apply Rmin_left; lra|].
    destruct (Rlt_dec py 0); destruct Hbehind as [Hb|Hb]; try lra.
    - assert (0 <= (py - ey) * / d) by (apply Rmult_le_pos; lra). lra.
    - assert (0 <= (ey - py) * / d) by (apply Rmult_le_pos; lra). lra. }
  rewrite Hcos. f_equal. simpl. lra.
Qed.

Lemma bonus_dec (self : AirHockeyPrepare) (next_state : State) (absorbing : bool) :
  {absorbing_bonus self next_state absorbing} + {~ absorbing_bonus self next_state absorbing}.
Proof.
  unfold absorbing_bonus. destruct absorbing; [|right; intros [H _]; discriminate H].
  destruct (sub_problem self =? "side")%string.
  - destruct (Rlt_dec (Rabs (puck_xy next_state).2) 0.47); [left|right]; tauto.
  - destruct (Rge_dec (puck_xy next_state).1 (-0.6)); [left|right]; tauto.
Qed.

Lemma exp_ge_1 (x : R) : 0 <= x -> 1 <= exp x.
Proof.
  intros Hx. destruct (Req_dec_T x 0) as [->|Hne]; [rewrite exp_0; lra|].
  assert (Hlt : 0 < x) by lra. apply exp_increasing in Hlt. rewrite exp_0 in Hlt. lra.
Qed.

Lemma gaussian_x_at_most (x : R) : gaussian_x x <= 5.
Proof.
  unfold gaussian_x.
  assert (Hs : 2 < sqrt (2 * PI)).
  { rewrite <- (sqrt_square 2) at 1 by lra. apply sqrt_lt_1; pose proof PI2_1; lra. }
  assert (Hscale : 0 < 1 / (sqrt (2 * PI) * 0.1) < 5).
  { split; [apply Rdiv_lt_0_compat; lra|].
    apply (Rmult_lt_reg_r (sqrt (2 * PI) * 0.1)); [lra|].
    unfold Rdiv. rewrite Rmult_assoc, Rinv_l by lra. lra. }
  assert (He : exp (- ((x + 0.75) / 0.1) ^ 2 / 2) <= 1).
  { apply exp_le_1. pose proof (pow2_ge_0 ((x + 0.75) / 0.1)). lra. }
  pose proof (exp_pos (- ((x + 0.75) / 0.1) ^ 2 / 2)). nra.
Qed.

Lemma posthit_at_most
    (self : AirHockeyPrepare) (state : State) (action : list R) (next_state : State)
    (absorbing : bool) (r : R) :
  ~ absorbing_bonus self next_state absorbing ->
  has_hit self = true ->
  0 <= action_penalty self ->
  reward self state action next_state absorbing = np.fin r ->
  r <= 8.5.
Proof.
  intros Hbonus Hhit Hpen. apply not_bonus_test in Hbonus.
  pose proof (penalty_nonneg self action Hpen) as Hp. unfold penalty in Hp.
  unfold reward. rewrite Hhit.
  fold (puck_xy next_state) (ee_xy next_state) (puck_velocity next_state).
  destruct (sub_problem self =? "side")%string; rewrite Hbonus.
  - destruct (Rltb (puck_xy next_state).1 (-0.35) && Rltb (Rabs (puck_xy next_state).2) 0.47);
      unfold np.sub, np.lift2; cbv zeta; intros [= <-]; [|lra].
    rewrite py_max_Rmax.
    pose proof (exp_ge_1 (Rabs (puck_velocity next_state).1) (Rabs_pos _)) as He.
    pose proof (linalg_norm2_nonneg (np.sub2 (ee_xy next_state) (ee_end_pos self))) as Hn.
    assert (Rmax 0 (1 - 10 * (exp (Rabs (puck_velocity next_state).1) - 1)) <= 1)
      by (apply Rmax_lub; lra).
    unfold puck_velocity, puck_xy, ee_xy in *. simpl in *. lra.
  - destruct (Rgtb (-0.6) (puck_xy next_state).1 && Rgtb (puck_xy next_state).1 (-0.9)
              && Rltb (Rabs (puck_xy next_state).2) 0.47);
      unfold np.sub, np.lift2; cbv zeta; intros [= <-]; [|lra].
    pose proof (gaussian_x_at_most (puck_xy next_state).1) as Hg.
    unfold gaussian_x in Hg. unfold np.power, np.pi.
    pose proof (Rabs_pos (puck_velocity next_state).2) as Hv.
    pose proof (linalg_norm2_nonneg (np.sub2 (ee_xy next_state) (ee_end_pos self))) as Hn.
    pose proof (exp_le_1 (-3 * np.linalg_norm2 (np.sub2 (ee_xy next_state) (ee_end_pos self)))
                  ltac:(lra)) as He.
    unfold puck_velocity, puck_xy, ee_xy in *. simpl in *. lra.
Qed.

(** X18.  With a non-negative [action_penalty], a reward that is a number
    is at most 100, and at most 8.5 on every step that does not earn the
    absorbing bonus. *)
Theorem reward_at_most
    (self : AirHockeyPrepare) (state : State) (action : list R) (next_state : State)
    (absorbing : bool) (r : R) :
  0 <= action_penalty self ->
  reward self state action next_state absorbing = np.fin r ->
  r <= 100 /\ (~ absorbing_bonus self next_state absorbing -> r <= 8.5).
Proof.
  intros Hpen Hval.
  destruct (bonus_dec self next_state absorbing) as [Hbonus|Hbonus].
  - split; [|contradiction].
    rewrite (reward_bonus_value _ _ _ _ _ Hbonus) in Hval. injection Hval as <-.
    pose proof (linalg_norm2_nonneg (puck_velocity next_state)) as Hn.
    pose proof (exp_le_1 (-2 * np.linalg_norm2 (puck_velocity next_state)) ltac:(lra)).
    lra.
  - assert (Hsmall : r <= 8.5).
    { destruct (has_hit self) eqn:Hhit.
      - eapply posthit_at_most; eassumption.
      - destruct (pair_eq_dec (puck_xy next_state) (ee_xy next_state)) as [Hsame|Hapart].
        + rewrite reward_coincident in Hval by assumption. discriminate Hval.
        + destruct (prehit_value self state action next_state absorbing Hbonus Hhit Hapart)
            as (c & Hc & Hval').
          rewrite Hval' in Hval. injection Hval as <-.
          pose proof (penalty_nonneg self action Hpen) as Hp.
          pose proof (distance_pos _ _ Hapart) as Hd.
          pose proof (square_unit c Hc) as Hsq.
          pose proof (exp_pos (-8 * (distance (puck_xy next_state) (ee_xy next_state) - 0.08)))
            as Hpos.
          assert (Hlt : exp (-8 * (distance (puck_xy next_state) (ee_xy next_state) - 0.08))
                        < exp 1) by (apply exp_increasing; lra).
          pose proof exp_le_3 as H3. nra. }
    split; [lra|intros _; exact Hsmall].
Qed.

Lemma mirror_reads (s : State) :
  puck_xy (mirror s) = ((puck_xy s).1, - (puck_xy s).2)
  /\ puck_velocity (mirror s) = ((puck_velocity s).1, - (puck_velocity s).2)
  /\ ee_xy (mirror s) = ((ee_xy s).1, - (ee_xy s).2).
Proof. repeat split. Qed.

Lemma linalg_norm2_mirror (a b : R) : np.linalg_norm2 (a, - b) = np.linalg_norm2 (a, b).
Proof. rewrite !linalg_norm2_eq. f_equal. ring. Qed.

Lemma distance_mirror (px py ex ey : R) :
  distance (px, - py) (ex, - ey) = distance (px, py) (ex, ey).
Proof.
  unfold distance, np.sub2. rewrite !linalg_norm2_eq. simpl. f_equal. ring.
Qed.

Lemma dot_direction_mirror (px py ex ey a b : R) :
  dot (direction (px, - py) (ex, - ey)) (a, - b)
  = dot (direction (px, py) (ex, ey)) (a, b).
Proof.
  unfold dot, direction. rewrite distance_mirror. simpl. unfold Rdiv. ring.
Qed.

Lemma bonus_mirror (self : AirHockeyPrepare) (next_state : State) (absorbing : bool) :
  absorbing_bonus self (mirror next_state) absorbing
  <-> absorbing_bonus self next_state absorbing.
Proof.
  unfold absorbing_bonus. destruct (mirror_reads next_state) as (-> & _ & _). simpl.
  rewrite Rabs_Ropp. reflexivity.
Qed.

(** X19.  Before the hit the reward is the same for a state and for its
    mirror image across the lane axis, in either sub-problem, as long as
    the puck is not exactly on the axis: the mirrored start that [setup]
    draws half of the time is rewarded like the original. *)
Theorem reward_mirror
    (self : AirHockeyPrepare) (state : State) (action : list R) (next_state : State)
    (absorbing : bool) :
  has_hit self = false ->
  (puck_xy next_state).2 <> 0 ->
  reward self state action (mirror next_state) absorbing
  = reward self state action next_state absorbing.
Proof.
  intros Hhit Hoff.
  destruct (bonus_dec self next_state absorbing) as [Hbonus|Hbonus].
  { rewrite (reward_bonus_value self state action (mirror next_state) absorbing)
      by (apply bonus_mirror; exact Hbonus).
    rewrite (reward_bonus_value self state action next_state absorbing Hbonus).
    destruct (mirror_reads next_state) as (_ & -> & _).
    rewrite linalg_norm2_mirror. destruct (puck_velocity next_state). reflexivity. }
  assert (Hbonus' : ~ absorbing_bonus self (mirror next_state) absorbing)
    by (rewrite bonus_mirror; exact Hbonus).
  destruct (pair_eq_dec (puck_xy next_state) (ee_xy next_state)) as [Hsame|Hapart].
  { rewrite (reward_coincident self state action (mirror next_state) absorbing Hbonus' Hhit).
    - rewrite (reward_coincident self state action next_state absorbing Hbonus Hhit Hsame).
      reflexivity.
    - destruct (mirror_reads next_state) as (-> & _ & ->). rewrite Hsame. reflexivity. }
  assert (Hapart' : puck_xy (mirror next_state) <> ee_xy (mirror next_state)).
  { destruct (mirror_reads next_state) as (-> & _ & ->). intros Heq.
    apply Hapart.
    destruct (puck_xy next_state) as [px py], (ee_xy next_state) as [ex ey].
    simpl in Heq. injection Heq as H1 H2. f_equal; lra. }
  unfold absorbing_bonus in Hbonus, Hbonus'.
  destruct (sub_problem self =? "side")%string eqn:Hsub.
  - apply String.eqb_eq in Hsub.
    rewrite (side_shaping_value self state action (mirror next_state) absorbing)
      by assumption.
    rewrite (side_shaping_value self state action next_state absorbing) by assumption.
    destruct (mirror_reads next_state) as (-> & _ & ->).
    destruct (puck_xy next_state) as [px py], (ee_xy next_state) as [ex ey].
    simpl in Hoff. simpl. rewrite distance_mirror.
    replace (dot (direction (px, - py) (ex, - ey)) (0, if Rlt_dec (- py) 0 then -1 else 1))
      with (dot (direction (px, py) (ex, ey)) (0, if Rlt_dec py 0 then -1 else 1));
      [reflexivity|].
    rewrite <- dot_direction_mirror. do 2 f_equal.
    destruct (Rlt_dec py 0), (Rlt_dec (- py) 0); lra.
  - rewrite (bottom_shaping_value self state action (mirror next_state) absorbing)
      by assumption.
    rewrite (bottom_shaping_value self state action next_state absorbing) by assumption.
    destruct (mirror_reads next_state) as (-> & _ & ->).
    destruct (puck_xy next_state) as [px py], (ee_xy next_state) as [ex ey].
    simpl in Hoff. simpl. rewrite distance_mirror.
    replace (dot (direction (px, - py) (ex, - ey))
                 (0.2, if Rlt_dec (- py) 0 then -0.8 else 0.8))
      with (dot (direction (px, py) (ex, ey)) (0.2, if Rlt_dec py 0 then -0.8 else 0.8)).
    2:{ rewrite <- dot_direction_mirror. do 2 f_equal.
        destruct (Rlt_dec py 0), (Rlt_dec (- py) 0); lra. }
    replace (dot (direction (px, - py) (ex, - ey)) (-1, 0))
      with (dot (direction (px, py) (ex, ey)) (-1, 0)); [reflexivity|].
    rewrite <- dot_direction_mirror. do 2 f_equal. lra.
Qed.

(** X20.  Of the object [reward] reads [sub_problem], [has_hit],
    [action_penalty] and [ee_end_pos] and nothing else, and it does not
    read the state before the step: [desired_point], which [setup]
    recomputes for every episode, the start range and the parent object
    have no influence on the reward. *)
Theorem reward_reads (a b : AirHockeyPrepare) (state1 state2 : State) (action : list R)
    (next_state : State) (absorbing : bool) :
  reward_reads_same a b ->
  reward a state1 action next_state absorbing = reward b state2 action next_state absorbing.
Proof.
  destruct a, b. unfold reward_reads_same. simpl.
  intros (? & ? & ? & ?). subst. reflexivity.
Qed.

End RewardMore.

Lemma bonus_bounds_witness :
  exists r : R,
    Prepare.reward (task "side" true false quiet_client (state_at (0.1, 0.2) (0, 0) (-0.5, 0)))
      (state_at (-0.6, 0.3) (0, 0) (-0.8, 0)) [1; 2; 2]
      (state_at (0.1, 0.2) (0.3, 0.4) (-0.5, 0)) true
    = np.fin r
    /\ 0 <= r <= 100
    /\ (puck_velocity (state_at (0.1, 0.2) (0.3, 0.4) (-0.5, 0)) = (0, 0) -> r = 100).
Proof.
  apply bonus_bounds. split; [reflexivity|].
  simpl. rewrite Rabs_pos_eq; lra.
Defined.

Lemma prehit_bounds_witness :
  exists r0 : R,
    Prepare.reward (task "bottom" false false quiet_client (state_at (-0.85, 0.3) (0, 0) (-0.8, 0)))
      (state_at (-0.85, 0.3) (0, 0) (-0.8, 0)) [3; 4]
      (state_at (-0.85, 0.3) (0, 0) (-0.8, 0)) false
    = np.fin (r0 - penalty (task "bottom" false false quiet_client
                              (state_at (-0.85, 0.3) (0, 0) (-0.8, 0))) [3; 4])
    /\ 0 <= r0 <= exp 0.64.
Proof.
  apply prehit_bounds.
  - intros [H _]. discriminate H.
  - reflexivity.
  - unfold distance. rewrite distance_eq_0.
    unfold puck_xy, ee_xy; simpl. intros [= H _]. lra.
Defined.

Lemma side_prehit_behind_witness :
  Prepare.reward (task "side" false false quiet_client (state_at (-0.7, 0.3) (0, 0) (-0.7, 0.4)))
    (state_at (-0.7, 0.3) (0, 0) (-0.7, 0.4)) [3; 4]
    (state_at (-0.7, 0.3) (0, 0) (-0.7, 0.4)) false
  = np.fin (0 - penalty (task "side" false false quiet_client
                           (state_at (-0.7, 0.3) (0, 0) (-0.7, 0.4))) [3; 4]).
Proof.
  apply side_prehit_behind.
  - reflexivity.
  - intros [H _]. discriminate H.
  - reflexivity.
  - unfold distance. rewrite distance_eq_0.
    unfold puck_xy, ee_xy; simpl. intros [= H]. lra.
  - left. unfold puck_xy, ee_xy; simpl. lra.
Defined.

Lemma reward_at_most_witness :
  100 * exp (-2 * np.linalg_norm2 (puck_velocity (state_at (0.1, 0.2) (0.3, 0.4) (-0.5, 0))))
  <= 100.
Proof.
  assert (Hbonus : absorbing_bonus
                     (task "side" true false quiet_client (state_at (0.1, 0.2) (0, 0) (-0.5, 0)))
                     (state_at (0.1, 0.2) (0.3, 0.4) (-0.5, 0)) true).
  { split; [reflexivity|]. simpl. rewrite Rabs_pos_eq; lra. }
  assert (Hpen : 0 <= Prepare.action_penalty
                        (task "side" true false quiet_client
                           (state_at (0.1, 0.2) (0, 0) (-0.5, 0)))) by (simpl; lra).
  exact (proj1 (reward_at_most _ (state_at (-0.6, 0.3) (0, 0) (-0.8, 0)) [1; 2; 2] _ _ _ Hpen
                  (reward_bonus_value _ (state_at (-0.6, 0.3) (0, 0) (-0.8, 0)) [1; 2; 2]
                     _ _ Hbonus))).
Defined.

Lemma reward_mirror_witness :
  Prepare.reward (task "side" false false quiet_client (state_at (-0.7, 0.3) (0, 0) (-0.7, 0.08)))
    (state_at (-0.7, 0.3) (0, 0) (-0.7, 0.08)) [3; 4]
    (mirror (state_at (-0.7, 0.3) (0, 0) (-0.7, 0.08))) false
  = Prepare.reward (task "side" false false quiet_client (state_at (-0.7, 0.3) (0, 0) (-0.7, 0.08)))
      (state_at (-0.7, 0.3) (0, 0) (-0.7, 0.08)) [3; 4]
      (state_at (-0.7, 0.3) (0, 0) (-0.7, 0.08)) false.
Proof.
  apply reward_mirror.
  - reflexivity.
  - unfold puck_xy; simpl. lra.
Defined.

Lemma reward_reads_witness :
  Prepare.reward (task "side" true false quiet_client (state_at (-0.5, 0.2) (0, 0) (-0.6, 0)))
    (state_at (-0.5, 0.2) (0, 0) (-0.6, 0)) [3; 4]
    (state_at (-0.5, 0.2) (0.1, 0) (-0.6, 0)) false
  = Prepare.reward (random_side_task striking_client (state_at (0.1, 0.2) (0, 0) (-0.5, 0)))
      (state_at (0.1, 0.2) (0, 0) (-0.5, 0)) [3; 4]
      (state_at (-0.5, 0.2) (0.1, 0) (-0.6, 0)) false.
Proof.
  apply reward_reads.
  unfold reward_reads_same. simpl. repeat split; reflexivity.
Defined.

(** ** Termination and reward together *)

Section TerminalReward.

Import Prepare.

Variable super_is_absorbing : AirHockeySingle -> State -> bool.

Lemma is_absorbing_crossed (self : AirHockeyPrepare) (s : State) :
  has_hit self = true ->
  crossed (_state (super self)) ->
  is_absorbing super_is_absorbing self s = true.
Proof.
  intros Hhit Hcross. apply crossed_test in Hcross. cbv zeta in Hcross.
  unfold is_absorbing. rewrite Hhit. cbv zeta. rewrite Hcross.
  destruct (super_is_absorbing (super self) s), (sub_problem self =? "side")%string;
    reflexivity.
Qed.

(** X21.  After a hit, with the reward computed on the object's current
    state and the verdict of [is_absorbing]: in "side" a puck on the lane
    axis (|puck_y| < 0.01) ends the episode with the bonus, while a puck
    that is past x = 0 with |puck_y| >= 0.47 ends it with 0 minus the
    action penalty; in the other sub-problems a puck past x = 0 ends the
    episode with the bonus. *)
Theorem terminal_reward (self : AirHockeyPrepare) (state s : State) (action : list R) :
  has_hit self = true ->
  (sub_problem self = "side" ->
   Rabs (puck_xy (_state (super self))).2 < 0.01 ->
   is_absorbing super_is_absorbing self s = true
   /\ reward self state action (_state (super self)) true
      = np.fin (100 * exp (-2 * np.linalg_norm2 (puck_velocity (_state (super self))))))
  /\ (sub_problem self = "side" ->
      (puck_xy (_state (super self))).1 > 0 ->
      Rabs (puck_xy (_state (super self))).2 >= 0.47 ->
      is_absorbing super_is_absorbing self s = true
      /\ reward self state action (_state (super self)) true
         = np.fin (0 - penalty self action))
  /\ (sub_problem self <> "side" ->
      (puck_xy (_state (super self))).1 > 0 ->
      is_absorbing super_is_absorbing self s = true
      /\ reward self state action (_state (super self)) true
         = np.fin (100 * exp (-2 * np.linalg_norm2 (puck_velocity (_state (super self)))))).
Proof.
  intros Hhit. split; [|split].
  - intros Hside Hy. split.
    + apply is_absorbing_crossed; [exact Hhit|]. right. exact Hy.
    + apply reward_bonus_value. split; [reflexivity|].
      rewrite (side_eqb self Hside). lra.
  - intros Hside Hx Hy. split.
    + apply is_absorbing_crossed; [exact Hhit|]. left. exact Hx.
    + unfold reward, penalty. rewrite (side_eqb self Hside), Hhit.
      fold (puck_xy (_state (super self))).
      assert (H1 : Rltb (Rabs (puck_xy (_state (super self))).2) 0.47 = false)
        by (apply Rltb_nlt; lra).
      assert (H2 : Rltb (puck_xy (_state (super self))).1 (-0.35) = false)
        by (apply Rltb_nlt; lra).
      rewrite H1, H2. reflexivity.
  - intros Hsub Hx. split.
    + apply is_absorbing_crossed; [exact Hhit|]. left. exact Hx.
    + apply reward_bonus_value. split; [reflexivity|].
      apply String.eqb_neq in Hsub. rewrite Hsub. lra.
Qed.

End TerminalReward.

Lemma terminal_reward_witness :
  Prepare.is_absorbing (fun _ _ => false)
    (task "side" true false quiet_client (state_at (-0.3, 0.005) (0.3, 0.4) (-0.5, 0)))
    (state_at (-0.3, 0.005) (0.3, 0.4) (-0.5, 0))
  = true
  /\ Prepare.reward
       (task "side" true false quiet_client (state_at (-0.3, 0.005) (0.3, 0.4) (-0.5, 0)))
       (state_at (-0.3, 0.1) (0.3, 0.4) (-0.5, 0)) [3; 4]
       (state_at (-0.3, 0.005) (0.3, 0.4) (-0.5, 0)) true
     = np.fin (100 * exp (-2 * np.linalg_norm2
                                 (puck_velocity
                                    (state_at (-0.3, 0.005) (0.3, 0.4) (-0.5, 0))))).
Proof.
  destruct (terminal_reward (fun _ _ => false)
              (task "side" true false quiet_client (state_at (-0.3, 0.005) (0.3, 0.4) (-0.5, 0)))
              (state_at (-0.3, 0.1) (0.3, 0.4) (-0.5, 0))
              (state_at (-0.3, 0.005) (0.3, 0.4) (-0.5, 0)) [3; 4] eq_refl) as [Haxis _].
  apply Haxis; [reflexivity|].
  unfold puck_xy; simpl. rewrite Rabs_pos_eq; lra.
Defined.
